(** * Bitfinex REST v2 client: request signing and response decoding

    A shallow embedding of [bitfinex/rest/restv2.py] (class [Client]:
    [__init__], [_nonce], [_headers], [_post], [_get], and the endpoint
    methods built on them) together with the library behaviour the
    client relies on: SHA-384 and HMAC from [hashlib]/[hmac], IEEE
    binary64 arithmetic and [repr] for Python floats, [str.format],
    [str.join], [json.dumps], and the attributes of a [requests]
    response that the client reads.  The clock and the network are the
    environment of a run; the requests issued are recorded in its state.

    Python [str] values are represented by [string], holding the UTF-8
    encoding of the text, so [s.encode('utf8')] is the list of its bytes. *)

From Stdlib Require Import ZArith List Strings.String Strings.Ascii Strings.Byte Bool Lia.
From Stdlib Require Import Floats.SpecFloat Numbers.DecimalString.
From stdpp Require Import gmap strings.

Import ListNotations.
Set Warnings "-register-all".
Local Open Scope string_scope.
Local Open Scope list_scope.
Local Open Scope Z_scope.

(* ===================================================================== *)
(** ** Bytes and 64-bit words *)
(* ===================================================================== *)

Definition bytes := list byte.

Definition byte_to_Z (b : byte) : Z := Z.of_N (Byte.to_N b).

Definition Z_to_byte (z : Z) : byte :=
  match Byte.of_N (Z.to_N (z mod 256)) with
  | Some b => b
  | None => x00
  end.

(** [str.encode('utf8')] on the UTF-8 representation of a [str]. *)
Definition encode_utf8 (s : string) : bytes := list_byte_of_string s.

Module W64.

Definition modulus : Z := 2 ^ 64.
Definition wrap (x : Z) : Z := x mod modulus.
Definition add (x y : Z) : Z := wrap (x + y).
Definition shr (n x : Z) : Z := Z.shiftr x n.
Definition rotr (n x : Z) : Z :=
  Z.lor (Z.shiftr x n) (wrap (Z.shiftl x (64 - n))).
Definition not (x : Z) : Z := Z.lxor x (modulus - 1).

(** Big-endian conversion between a word and its eight bytes. *)
Definition to_bytes (w : Z) : bytes :=
  [ Z_to_byte (Z.shiftr w 56); Z_to_byte (Z.shiftr w 48);
    Z_to_byte (Z.shiftr w 40); Z_to_byte (Z.shiftr w 32);
    Z_to_byte (Z.shiftr w 24); Z_to_byte (Z.shiftr w 16);
    Z_to_byte (Z.shiftr w 8);  Z_to_byte w ].

Definition of_bytes (bs : bytes) : Z :=
  fold_left (fun acc b => Z.lor (Z.shiftl acc 8) (byte_to_Z b)) bs 0.

End W64.

(* ===================================================================== *)
(** ** SHA-384 (FIPS 180-4), as provided by [hashlib.sha384] *)
(* ===================================================================== *)

Module Sha384.

Definition block_size : nat := 128.
Definition digest_size : nat := 48.

Definition K : list Z :=
[ 0x428a2f98d728ae22; 0x7137449123ef65cd; 0xb5c0fbcfec4d3b2f; 0xe9b5dba58189dbbc;
  0x3956c25bf348b538; 0x59f111f1b605d019; 0x923f82a4af194f9b; 0xab1c5ed5da6d8118;
  0xd807aa98a3030242; 0x12835b0145706fbe; 0x243185be4ee4b28c; 0x550c7dc3d5ffb4e2;
  0x72be5d74f27b896f; 0x80deb1fe3b1696b1; 0x9bdc06a725c71235; 0xc19bf174cf692694;
  0xe49b69c19ef14ad2; 0xefbe4786384f25e3; 0x0fc19dc68b8cd5b5; 0x240ca1cc77ac9c65;
  0x2de92c6f592b0275; 0x4a7484aa6ea6e483; 0x5cb0a9dcbd41fbd4; 0x76f988da831153b5;
  0x983e5152ee66dfab; 0xa831c66d2db43210; 0xb00327c898fb213f; 0xbf597fc7beef0ee4;
  0xc6e00bf33da88fc2; 0xd5a79147930aa725; 0x06ca6351e003826f; 0x142929670a0e6e70;
  0x27b70a8546d22ffc; 0x2e1b21385c26c926; 0x4d2c6dfc5ac42aed; 0x53380d139d95b3df;
  0x650a73548baf63de; 0x766a0abb3c77b2a8; 0x81c2c92e47edaee6; 0x92722c851482353b;
  0xa2bfe8a14cf10364; 0xa81a664bbc423001; 0xc24b8b70d0f89791; 0xc76c51a30654be30;
  0xd192e819d6ef5218; 0xd69906245565a910; 0xf40e35855771202a; 0x106aa07032bbd1b8;
  0x19a4c116b8d2d0c8; 0x1e376c085141ab53; 0x2748774cdf8eeb99; 0x34b0bcb5e19b48a8;
  0x391c0cb3c5c95a63; 0x4ed8aa4ae3418acb; 0x5b9cca4f7763e373; 0x682e6ff3d6b2b8a3;
  0x748f82ee5defb2fc; 0x78a5636f43172f60; 0x84c87814a1f0ab72; 0x8cc702081a6439ec;
  0x90befffa23631e28; 0xa4506cebde82bde9; 0xbef9a3f7b2c67915; 0xc67178f2e372532b;
  0xca273eceea26619c; 0xd186b8c721c0c207; 0xeada7dd6cde0eb1e; 0xf57d4f7fee6ed178;
  0x06f067aa72176fba; 0x0a637dc5a2c898a6; 0x113f9804bef90dae; 0x1b710b35131c471b;
  0x28db77f523047d84; 0x32caab7b40c72493; 0x3c9ebe0a15c9bebc; 0x431d67c49c100d4c;
  0x4cc5d4becb3e42b6; 0x597f299cfc657e2a; 0x5fcb6fab3ad6faec; 0x6c44198c4a475817 ].

(** The eight working variables / chaining values. *)
Record state := State {
  sa : Z; sb : Z; sc : Z; sd : Z; se : Z; sf : Z; sg : Z; sh : Z }.

Definition initial : state :=
  State 0xcbbb9d5dc1059ed8 0x629a292a367cd507 0x9159015a3070dd17
        0x152fecd8f70e5939 0x67332667ffc00b31 0x8eb44a8768581511
        0xdb0c2e0d64f98fa7 0x47b5481dbefa4fa4.

Definition Ch (x y z : Z) : Z :=
  Z.lxor (Z.land x y) (Z.land (W64.not x) z).
Definition Maj (x y z : Z) : Z :=
  Z.lxor (Z.lxor (Z.land x y) (Z.land x z)) (Z.land y z).
Definition Sigma0 (x : Z) : Z :=
  Z.lxor (Z.lxor (W64.rotr 28 x) (W64.rotr 34 x)) (W64.rotr 39 x).
Definition Sigma1 (x : Z) : Z :=
  Z.lxor (Z.lxor (W64.rotr 14 x) (W64.rotr 18 x)) (W64.rotr 41 x).
Definition sigma0 (x : Z) : Z :=
  Z.lxor (Z.lxor (W64.rotr 1 x) (W64.rotr 8 x)) (W64.shr 7 x).
Definition sigma1 (x : Z) : Z :=
  Z.lxor (Z.lxor (W64.rotr 19 x) (W64.rotr 61 x)) (W64.shr 6 x).

(** Padding: a 1 bit, zeros, and the bit length as a 128-bit big-endian
    integer, up to a multiple of the block size. *)
Definition pad (msg : bytes) : bytes :=
  let len := Z.of_nat (length msg) in
  let zeros := Z.to_nat ((111 - len) mod 128) in
  msg ++ [x80] ++ repeat x00 zeros
      ++ W64.to_bytes (Z.shiftr (8 * len) 64)
      ++ W64.to_bytes (W64.wrap (8 * len)).

(** Cut a byte string into consecutive chunks of [n] bytes. *)
Fixpoint chunks (fuel n : nat) (bs : bytes) : list bytes :=
  match fuel, bs with
  | O, _ | _, [] => []
  | S fuel', _ => firstn n bs :: chunks fuel' n (skipn n bs)
  end.

Definition block_words (block : bytes) : list Z :=
  map W64.of_bytes (chunks 16 8 block).

(** Message schedule, most recent word first: [rev_w] holds
    W(t-1), W(t-2), ... *)
Fixpoint extend (n : nat) (rev_w : list Z) : list Z :=
  match n with
  | O => rev_w
  | S n' =>
      let w := W64.add (W64.add (sigma1 (nth 1 rev_w 0)) (nth 6 rev_w 0))
                       (W64.add (sigma0 (nth 14 rev_w 0)) (nth 15 rev_w 0)) in
      extend n' (w :: rev_w)
  end.

Definition schedule (block : bytes) : list Z :=
  rev (extend 64 (rev (block_words block))).

Definition round (s : state) (kw : Z * Z) : state :=
  let '(k, w) := kw in
  let t1 := W64.add (W64.add (W64.add (sh s) (Sigma1 (se s)))
                             (W64.add (Ch (se s) (sf s) (sg s)) k)) w in
  let t2 := W64.add (Sigma0 (sa s)) (Maj (sa s) (sb s) (sc s)) in
  State (W64.add t1 t2) (sa s) (sb s) (sc s)
        (W64.add (sd s) t1) (se s) (sf s) (sg s).

Definition compress (h : state) (block : bytes) : state :=
  let s := fold_left round (combine K (schedule block)) h in
  State (W64.add (sa h) (sa s)) (W64.add (sb h) (sb s))
        (W64.add (sc h) (sc s)) (W64.add (sd h) (sd s))
        (W64.add (se h) (se s)) (W64.add (sf h) (sf s))
        (W64.add (sg h) (sg s)) (W64.add (sh h) (sh s)).

(** SHA-384 keeps the first six of the eight chaining words. *)
Definition output (s : state) : bytes :=
  W64.to_bytes (sa s) ++ W64.to_bytes (sb s) ++ W64.to_bytes (sc s) ++
  W64.to_bytes (sd s) ++ W64.to_bytes (se s) ++ W64.to_bytes (sf s).

Definition digest (msg : bytes) : bytes :=
  let padded := pad msg in
  output (fold_left compress (chunks (length padded) block_size padded) initial).

End Sha384.

(* ===================================================================== *)
(** ** HMAC (RFC 2104), as provided by [hmac.new(key, msg, hashlib.sha384)] *)
(* ===================================================================== *)

Module Hmac.

Definition xor_byte (c : Z) (b : byte) : byte :=
  Z_to_byte (Z.lxor c (byte_to_Z b)).

(** Keys longer than a block are hashed; all keys are zero-padded to
    the block size. *)
Definition block_key (key : bytes) : bytes :=
  let k := if (Sha384.block_size <? length key)%nat
           then Sha384.digest key else key in
  k ++ repeat x00 (Sha384.block_size - length k).

Definition digest (key msg : bytes) : bytes :=
  let k := block_key key in
  let inner := Sha384.digest (map (xor_byte 0x36) k ++ msg) in
  Sha384.digest (map (xor_byte 0x5c) k ++ inner).

Definition hex_digit (n : Z) : ascii :=
  nth (Z.to_nat n)
      (list_ascii_of_string "0123456789abcdef") "0"%char.

(** [hexdigest()]: two lowercase hexadecimal digits per byte. *)
Fixpoint hex (bs : bytes) : string :=
  match bs with
  | [] => EmptyString
  | b :: bs' =>
      String (hex_digit (byte_to_Z b / 16))
             (String (hex_digit (byte_to_Z b mod 16)) (hex bs'))
  end.

Definition hexdigest (key msg : bytes) : string := hex (digest key msg).

Definition is_lower_hex (c : ascii) : bool :=
  existsb (Ascii.eqb c) (list_ascii_of_string "0123456789abcdef").

End Hmac.

(* ===================================================================== *)
(** ** Python floats: IEEE 754 binary64 *)
(* ===================================================================== *)

Module Float.

Definition prec : Z := 53.
Definition emax : Z := 1024.

Definition mul : spec_float -> spec_float -> spec_float := SFmul prec emax.
Definition ltb : spec_float -> spec_float -> bool := SFltb.
Definition valid : spec_float -> bool := valid_binary prec emax.


(** The float nearest to an integer, and to [m * 2^e]. *)
Definition of_Z (z : Z) : spec_float := binary_normalize prec emax z 0 false.
Definition ldexp (m e : Z) : spec_float := binary_normalize prec emax m e false.

Definition one : spec_float := S754_finite false 4503599627370496 (-52).
Definition max_float : spec_float := SFmax_float prec emax.
Definition inf : spec_float := S754_infinity false.

(** A positive normal float, as [time.time()] returns. *)
Definition is_normal_pos (x : spec_float) : bool :=
  match x with
  | S754_finite false m e => valid x && (Zpos (digits2_pos m) =? 53)
  | _ => false
  end.

(** *** [repr] of a float (what [str] returns for floats)

    The shortest decimal digit string that reads back as the same
    float, the nearest to it among the shortest (an exact tie going to
    the even last digit), laid out in fixed or exponent notation as
    CPython does. *)

Definition pow_pos (b e : Z) : Z := b ^ Z.max e 0.
Definition pow_neg (b e : Z) : Z := b ^ Z.max (- e) 0.

Definition dec_string (n : Z) : string :=
  DecimalString.NilZero.string_of_uint (N.to_uint (Z.to_N n)).

Definition zeros (n : Z) : string :=
  string_of_list_ascii (repeat "0"%char (Z.to_nat n)).

Fixpoint strip_zeros_rev (l : list ascii) : list ascii :=
  match l with
  | c :: l' => if Ascii.eqb c "0" then strip_zeros_rev l' else l
  | [] => []
  end.

Definition strip_trailing_zeros (s : string) : string :=
  string_of_list_ascii (rev (strip_zeros_rev (rev (list_ascii_of_string s)))).

(** Position of the decimal point of [x4 * 2^q]: the value lies in
    [10^(decpt-1), 10^decpt). *)
Definition decimal_point (x4 q : Z) : Z :=
  Z.of_nat (String.length
    (dec_string ((x4 * 10 ^ 400 * pow_pos 2 q) / pow_neg 2 q))) - 400.

(** Search for the shortest digit count [n] with an [n]-digit decimal
    inside the rounding interval [lo4, hi4] (times [2^q]) of [mid4]. *)
Fixpoint shortest (fuel : nat) (n : Z) (closed : bool)
         (lo4 mid4 hi4 q decpt : Z) : Z * Z :=
  let k := decpt - n in
  let unit := pow_neg 2 q * pow_pos 10 k in
  let scale := pow_pos 2 q * pow_neg 10 k in
  let lo := lo4 * scale in
  let mid := mid4 * scale in
  let hi := hi4 * scale in
  let inside c :=
    if closed then (lo <=? c * unit) && (c * unit <=? hi)
    else (lo <? c * unit) && (c * unit <? hi) in
  let dist c := Z.abs (c * unit - mid) in
  let c1 := mid / unit in
  let c2 := c1 + 1 in
  let pick :=
    match inside c1, inside c2 with
    | true, true =>
        Some (if dist c2 <? dist c1 then c2
              else if dist c1 <? dist c2 then c1
              else if Z.even c1 then c1 else c2)
    | true, false => Some c1
    | false, true => Some c2
    | false, false => None
    end in
  match pick, fuel with
  | Some c, _ => (c, k)
  | None, O => (c1, k)
  | None, S fuel' => shortest fuel' (n + 1) closed lo4 mid4 hi4 q decpt
  end.

Definition layout (digits : string) (decpt : Z) : string :=
  let n := Z.of_nat (String.length digits) in
  if (decpt <=? -4) || (16 <? decpt) then
    let e := decpt - 1 in
    let frac := substring 1 (String.length digits - 1) digits in
    let ex := dec_string (Z.abs e) in
    String.append (substring 0 1 digits)
      (String.append (if String.eqb frac "" then "" else String.append "." frac)
        (String.append (if e <? 0 then "e-" else "e+")
          (String.append (if Z.abs e <? 10 then "0" else "") ex)))
  else if decpt <=? 0 then
    String.append "0." (String.append (zeros (- decpt)) digits)
  else if n <=? decpt then
    String.append digits (String.append (zeros (decpt - n)) ".0")
  else
    String.append (substring 0 (Z.to_nat decpt) digits)
      (String.append "." (substring (Z.to_nat decpt)
                                    (String.length digits - Z.to_nat decpt) digits)).

Definition repr_finite (m : positive) (e : Z) : string :=
  let mid4 := 4 * Zpos m in
  let lo4 := if (Pos.eqb m 4503599627370496) && (-1074 <? e)
             then mid4 - 1 else mid4 - 2 in
  let hi4 := mid4 + 2 in
  let q := e - 2 in
  let '(c, k) := shortest 17 1 (Z.even (Zpos m)) lo4 mid4 hi4 q
                          (decimal_point mid4 q) in
  let all_digits := dec_string c in
  layout (strip_trailing_zeros all_digits)
         (k + Z.of_nat (String.length all_digits)).

Definition repr (x : spec_float) : string :=
  match x with
  | S754_nan => "nan"
  | S754_infinity false => "inf"
  | S754_infinity true => "-inf"
  | S754_zero false => "0.0"
  | S754_zero true => "-0.0"
  | S754_finite false m e => repr_finite m e
  | S754_finite true m e => String.append "-" (repr_finite m e)
  end.

End Float.

(* ===================================================================== *)
(** ** Python values, exceptions and the effects the client performs *)
(* ===================================================================== *)

Module Py.

(** The data values the client handles: constructor arguments, header
    values, decoded JSON. *)
Inductive value :=
| VNone
| VBool (b : bool)
| VInt (z : Z)
| VFloat (x : spec_float)
| VStr (s : string)
| VList (items : list value)
| VDict (items : list (string * value)).

Inductive exn :=
| AssertionError (msg : string)
| AttributeError (msg : string)
| TypeError (msg : string)
| ValueError (msg : string)
| IndexError (msg : string)
| JSONDecodeError
| RequestException (kind : string)
| BitfinexException (args : list value).

Inductive outcome (A : Type) :=
| Return (a : A)
| Raise (e : exn).
Arguments Return {A} a.
Arguments Raise {A} e.

Definition type_name (v : value) : string :=
  match v with
  | VNone => "NoneType"
  | VBool _ => "bool"
  | VInt _ => "int"
  | VFloat _ => "float"
  | VStr _ => "str"
  | VList _ => "list"
  | VDict _ => "dict"
  end.

(** [isinstance(v, float)] *)
Definition isinstance_float (v : value) : bool :=
  match v with VFloat _ => true | _ => false end.

(** [v.encode('utf8')]: only [str] has the attribute. *)
Definition encode (v : value) : outcome bytes :=
  match v with
  | VStr s => Return (encode_utf8 s)
  | _ => Raise (AttributeError
           (String.append "'" (String.append (type_name v)
              "' object has no attribute 'encode'")))
  end.

(** [v()]: none of the data values is callable. *)
Definition call (v : value) : outcome value :=
  Raise (TypeError
    (String.append "'" (String.append (type_name v)
       "' object is not callable"))).

(** [template.format(a1, a2, ...)] for templates made of literal text, the
    escapes [{{] and [}}], and automatically numbered fields [{}];
    the arguments are [str] values, so each field is replaced by its
    argument as it is.  Surplus arguments are ignored, as in Python. *)
Fixpoint format (template : string) (args : list string) : outcome string :=
  match template with
  | EmptyString => Return EmptyString
  | String c rest =>
      let literal (tail : outcome string) :=
        match tail with
        | Return s => Return (String c s)
        | Raise e => Raise e
        end in
      if Ascii.eqb c "{" then
        match rest with
        | EmptyString => Raise (ValueError "Single '{' encountered in format string")
        | String c' rest' =>
            if Ascii.eqb c' "{" then literal (format rest' args)
            else if Ascii.eqb c' "}" then
              match args with
              | [] => Raise (IndexError
                        "Replacement index out of range for positional args tuple")
              | a :: args' =>
                  match format rest' args' with
                  | Return s => Return (String.append a s)
                  | Raise e => Raise e
                  end
              end
            else Raise (ValueError "format field outside the modelled fragment")
        end
      else if Ascii.eqb c "}" then
        match rest with
        | String c' rest' =>
            if Ascii.eqb c' "}" then literal (format rest' args)
            else Raise (ValueError "Single '}' encountered in format string")
        | EmptyString => Raise (ValueError "Single '}' encountered in format string")
        end
      else literal (format rest args)
  end.

End Py.

Import Py.

(* ===================================================================== *)
(** ** A JSON decoder for the bodies used in the examples *)
(* ===================================================================== *)

(** [json.loads] restricted to texts of at most 400 characters without
    string escapes and without fractional or exponent numbers.  On such
    a text the answer is the decoded value or [Malformed]; every other
    text is [Unsupported], so the decoder never answers for a text
    outside its fragment.  The
    statements about the client hold for every response; the decoder
    only builds the responses of the worked examples from their bodies. *)
Module Json.

Inductive result (A : Type) :=
| Decoded (a : A) (rest : list ascii)
| Malformed
| Unsupported.
Arguments Decoded {A} a rest.
Arguments Malformed {A}.
Arguments Unsupported {A}.

Definition dquote : ascii := "034".
Definition backslash : ascii := "092".

Definition is_ws (c : ascii) : bool :=
  Ascii.eqb c " " || Ascii.eqb c "009" || Ascii.eqb c "010" || Ascii.eqb c "013".

Fixpoint skip_ws (cs : list ascii) : list ascii :=
  match cs with
  | c :: cs' => if is_ws c then skip_ws cs' else cs
  | [] => []
  end.

Definition is_digit (c : ascii) : bool :=
  (48 <=? nat_of_ascii c)%nat && (nat_of_ascii c <=? 57)%nat.

Definition digit_value (c : ascii) : Z := Z.of_nat (nat_of_ascii c) - 48.

(** The characters of a string up to its closing quote. *)
Fixpoint scan_string (cs acc : list ascii) : result string :=
  match cs with
  | [] => Malformed
  | c :: cs' =>
      if Ascii.eqb c dquote then Decoded (string_of_list_ascii (rev acc)) cs'
      else if Ascii.eqb c backslash then Unsupported
      else if (nat_of_ascii c <? 32)%nat then Malformed
      else scan_string cs' (c :: acc)
  end.

Fixpoint scan_digits (cs : list ascii) (acc : Z) : Z * list ascii :=
  match cs with
  | c :: cs' =>
      if is_digit c then scan_digits cs' (10 * acc + digit_value c)
      else (acc, cs)
  | [] => (acc, [])
  end.

Definition starts_fraction (cs : list ascii) : bool :=
  match cs with
  | c :: _ => Ascii.eqb c "." || Ascii.eqb c "e" || Ascii.eqb c "E"
  | [] => false
  end.

(** An integer: an optional minus sign, then 0 or a digit string that
    does not start with 0. *)
Definition scan_number (negative : bool) (cs : list ascii) : result value :=
  match cs with
  | [] => Malformed
  | c :: cs' =>
      if Ascii.eqb c "I" then (if negative then Unsupported else Malformed)
      else if negb (is_digit c) then Malformed
      else
        let '(n, rest) := if Ascii.eqb c "0" then (0, cs') else scan_digits cs 0 in
        if starts_fraction rest then Unsupported
        else Decoded (VInt (if negative then - n else n)) rest
  end.

Fixpoint starts_with (word cs : list ascii) : option (list ascii) :=
  match word, cs with
  | [], _ => Some cs
  | a :: word', c :: cs' => if Ascii.eqb a c then starts_with word' cs' else None
  | _ :: _, [] => None
  end.

Definition scan_word (cs : list ascii) : result value :=
  match starts_with (list_ascii_of_string "null") cs,
        starts_with (list_ascii_of_string "true") cs,
        starts_with (list_ascii_of_string "false") cs with
  | Some rest, _, _ => Decoded VNone rest
  | _, Some rest, _ => Decoded (VBool true) rest
  | _, _, Some rest => Decoded (VBool false) rest
  | None, None, None =>
      match starts_with (list_ascii_of_string "NaN") cs,
            starts_with (list_ascii_of_string "Infinity") cs with
      | None, None => Malformed
      | _, _ => Unsupported
      end
  end.

(** A repeated key keeps its first position and takes the last value,
    as in a Python [dict]. *)
Fixpoint dict_set (d : list (string * value)) (k : string) (v : value)
  : list (string * value) :=
  match d with
  | [] => [(k, v)]
  | (k', v') :: d' =>
      if String.eqb k' k then (k', v) :: d' else (k', v') :: dict_set d' k v
  end.

(** [scan_value] expects its input to start at the value; [elements]
    and [members] continue an array or an object after at least one
    item may follow. *)
Fixpoint scan_value (fuel : nat) (cs : list ascii) : result value :=
  match fuel with
  | O => Unsupported
  | S fuel' =>
      match cs with
      | [] => Malformed
      | c :: cs' =>
          if Ascii.eqb c "[" then
            match skip_ws cs' with
            | c' :: rest =>
                if Ascii.eqb c' "]" then Decoded (VList []) rest
                else elements fuel' (c' :: rest) []
            | [] => Malformed
            end
          else if Ascii.eqb c "{" then
            match skip_ws cs' with
            | c' :: rest =>
                if Ascii.eqb c' "}" then Decoded (VDict []) rest
                else members fuel' (c' :: rest) []
            | [] => Malformed
            end
          else if Ascii.eqb c dquote then
            match scan_string cs' [] with
            | Decoded s rest => Decoded (VStr s) rest
            | Malformed => Malformed
            | Unsupported => Unsupported
            end
          else if Ascii.eqb c "-" then scan_number true cs'
          else if is_digit c then scan_number false cs
          else scan_word cs
      end
  end

with elements (fuel : nat) (cs : list ascii) (acc : list value) : result value :=
  match fuel with
  | O => Unsupported
  | S fuel' =>
      match scan_value fuel' cs with
      | Decoded v rest =>
          match skip_ws rest with
          | c :: rest' =>
              if Ascii.eqb c "," then elements fuel' (skip_ws rest') (v :: acc)
              else if Ascii.eqb c "]" then Decoded (VList (rev (v :: acc))) rest'
              else Malformed
          | [] => Malformed
          end
      | Malformed => Malformed
      | Unsupported => Unsupported
      end
  end

with members (fuel : nat) (cs : list ascii) (acc : list (string * value))
  : result value :=
  match fuel with
  | O => Unsupported
  | S fuel' =>
      match cs with
      | [] => Malformed
      | q :: cs' =>
          if negb (Ascii.eqb q dquote) then Malformed
          else
            match scan_string cs' [] with
            | Decoded k rest =>
                match skip_ws rest with
                | colon :: rest' =>
                    if negb (Ascii.eqb colon ":") then Malformed
                    else
                      match scan_value fuel' (skip_ws rest') with
                      | Decoded v rest'' =>
                          match skip_ws rest'' with
                          | c :: rest3 =>
                              if Ascii.eqb c "," then
                                members fuel' (skip_ws rest3) (dict_set acc k v)
                              else if Ascii.eqb c "}" then
                                Decoded (VDict (dict_set acc k v)) rest3
                              else Malformed
                          | [] => Malformed
                          end
                      | Malformed => Malformed
                      | Unsupported => Unsupported
                      end
                | [] => Malformed
                end
            | Malformed => Malformed
            | Unsupported => Unsupported
            end
      end
  end.

Definition loads (s : string) : result value :=
  let cs := list_ascii_of_string s in
  if (400 <? length cs)%nat then Unsupported
  else
    match scan_value (2 * length cs + 2) (skip_ws cs) with
    | Decoded v rest =>
        match skip_ws rest with
        | [] => Decoded v []
        | _ :: _ => Malformed
        end
    | Malformed => Malformed
    | Unsupported => Unsupported
    end.

(** What [response.json()] gives for a body in the fragment. *)
Definition decode (s : string) : option value :=
  match loads s with
  | Decoded v _ => Some v
  | _ => None
  end.

End Json.

(** *** The [requests] library, as far as the client uses it *)

Inductive Method := GET | POST.

(** One call of [requests.get] / [requests.post]; a keyword argument
    that the call does not pass is [None]. *)
Record Request := {
  method : Method;
  url : string;
  params : option (list (string * value));
  headers : option (gmap string value);
  data : option string;
  timeout : option spec_float;
  verify : option bool
}.

(** What the client reads from a response: the attributes
    [status_code] and [reason], the property [text], and the result of
    the method [json()], with [None] standing for a body that does not
    decode ([JSONDecodeError]). *)
Record Response := {
  status_code : Z;
  reason : string;
  text : string;
  json : option value
}.

Definition Response_json (r : Response) : outcome value :=
  match json r with
  | Some v => Return v
  | None => Raise JSONDecodeError
  end.

(** [response.text] is a property: reading it yields the [str]. *)
Definition Response_text (r : Response) : value := VStr (text r).

(** The surroundings of a run: what successive [time.time()] calls
    return and how the network answers a request (a response, or an
    exception raised by the transport). *)
Record Env := {
  clock : nat -> spec_float;
  server : Request -> outcome Response
}.

(** The state a run changes: how often the clock was read and the
    requests issued so far, oldest first. *)
Record World := {
  ticks : nat;
  sent : list Request
}.

Definition M (A : Type) : Type := Env -> World -> outcome A * World.

Definition ret {A} (a : A) : M A := fun _ w => (Return a, w).
Definition raise {A} (e : exn) : M A := fun _ w => (Raise e, w).
Definition lift {A} (o : outcome A) : M A := fun _ w => (o, w).

Definition bind {A B} (c : M A) (k : A -> M B) : M B :=
  fun env w =>
    match c env w with
    | (Return a, w') => k a env w'
    | (Raise e, w') => (Raise e, w')
    end.

Notation "x <- c ;; k" := (bind c (fun x => k))
  (at level 100, c at next level, right associativity).

(** [try: body  except JSONDecodeError: handler] *)
Definition try_except_JSONDecodeError {A} (body handler : M A) : M A :=
  fun env w =>
    match body env w with
    | (Raise JSONDecodeError, w') => handler env w'
    | r => r
    end.

Definition time_time : M spec_float :=
  fun env w =>
    (Return (clock env (ticks w)), {| ticks := S (ticks w); sent := sent w |}).

Definition issue (req : Request) : M Response :=
  fun env w =>
    (server env req, {| ticks := ticks w; sent := sent w ++ [req] |}).

(** [requests.get(url, timeout=..., params=...)] *)
Definition get_call (url : string) (timeout : spec_float)
           (params : list (string * value)) : Request :=
  {| method := GET; url := url; params := Some params; headers := None;
     data := None; timeout := Some timeout; verify := None |}.

Definition requests_get (url : string) (timeout : spec_float)
           (params : list (string * value)) : M Response :=
  issue (get_call url timeout params).

(** [requests.post(url, headers=..., data=..., verify=...)] *)
Definition post_call (url : string) (headers : gmap string value)
           (data : string) (verify : bool) : Request :=
  {| method := POST; url := url; params := None; headers := Some headers;
     data := Some data; timeout := None; verify := Some verify |}.

Definition requests_post (url : string) (headers : gmap string value)
           (data : string) (verify : bool) : M Response :=
  issue (post_call url headers data verify).

(* ===================================================================== *)
(** ** The client ([bitfinex/rest/restv2.py]) *)
(* ===================================================================== *)

Definition PROTOCOL : string := "https".
Definition HOST : string := "api.bitfinex.com".
Definition VERSION : string := "v2".

(** HTTP request timeout in seconds: the float [5.0]. *)
Definition TIMEOUT : spec_float := S754_finite false 5629499534213120 (-50).

Record Client := {
  base_url : string;
  key : value;
  secret : value;
  nonce_multiplier : spec_float
}.

(** [Client.__init__]: the assertion admits floats only; key and secret
    are stored as given (they default to [None]). *)
Definition __init__ (key secret nonce_multiplier : value) : outcome Client :=
  match nonce_multiplier with
  | VFloat m =>
      Return {| base_url := String.append PROTOCOL
                              (String.append "://" (String.append HOST "/"));
                key := key;
                secret := secret;
                nonce_multiplier := m |}
  | _ => Raise (AssertionError "nonce_multiplier must be decimal")
  end.

Section Client.

(** [str] on floats; every statement about the client holds whatever
    this rendering is, and [Float.repr] is the one CPython uses. *)
Variable float_str : spec_float -> string.

Definition _nonce (self : Client) : M string :=
  now <- time_time ;;
  ret (float_str (Float.mul now (nonce_multiplier self))).

Definition _headers (self : Client) (path nonce body : string)
  : M (gmap string value) :=
  signature <- lift (Py.format "/api/{}{}{}" [path; nonce; body]) ;;
  hmac_key <- lift (Py.encode (secret self)) ;;
  let signature := Hmac.hexdigest hmac_key (encode_utf8 signature) in
  ret ({[ "bfx-nonce" := VStr nonce;
          "bfx-apikey" := key self;
          "bfx-signature" := VStr signature;
          "content-type" := VStr "application/json" ]} : gmap string value).

Definition _post (self : Client) (path payload : string) (verify : bool)
  : M value :=
  nonce <- _nonce self ;;
  headers <- _headers self path nonce payload ;;
  response <- requests_post (String.append (base_url self) path)
                            headers payload verify ;;
  if status_code response =? 200 then
    lift (Response_json response)
  else
    content <- try_except_JSONDecodeError
                 (lift (Response_json response))
                 (lift (Py.call (Response_text response))) ;;
    raise (BitfinexException
             [VInt (status_code response); VStr (reason response); content]).

Definition _get (self : Client) (path : string)
           (params : list (string * value)) : M value :=
  let url := String.append (base_url self) path in
  response <- requests_get url TIMEOUT params ;;
  if status_code response =? 200 then
    lift (Response_json response)
  else
    content <- try_except_JSONDecodeError
                 (lift (Response_json response))
                 (lift (Py.call (Response_text response))) ;;
    raise (BitfinexException
             [VInt (status_code response); VStr (reason response); content]).

End Client.

(* ===================================================================== *)
(** ** Vocabulary of the statements, and the worked examples *)
(* ===================================================================== *)

(** The world after one clock reading, and after one request. *)
Definition after_tick (w : World) : World :=
  {| ticks := S (ticks w); sent := sent w |}.

Definition after_issue (w : World) (req : Request) : World :=
  {| ticks := ticks w; sent := sent w ++ [req] |}.

(** What the shared tail of [_get] and [_post] makes of a response. *)
Definition decoded (r : Response) : outcome value :=
  if status_code r =? 200 then Response_json r
  else match json r with
       | Some content =>
           Raise (BitfinexException
                    [VInt (status_code r); VStr (reason r); content])
       | None => Py.call (Response_text r)
       end.

Definition reply (o : outcome Response) : outcome value :=
  match o with
  | Return r => decoded r
  | Raise e => Raise e
  end.

Section Calls.

Variable float_str : spec_float -> string.

(** The nonce that [_nonce] produces in a given world. *)
Definition nonce_at (self : Client) (env : Env) (w : World) : string :=
  float_str (Float.mul (clock env (ticks w)) (nonce_multiplier self)).

(** Two calls of [_nonce] in immediate succession. *)
Definition successive_nonces (self : Client) : M (string * string) :=
  first <- _nonce float_str self ;;
  second <- _nonce float_str self ;;
  ret (first, second).

End Calls.

(** A response with the given body, for a body in the fragment of
    [Json.loads]: its [json()] is what the decoder finds. *)
Definition received (status : Z) (reason body : string) : Response :=
  {| status_code := status; reason := reason; text := body;
     json := Json.decode body |}.

Definition quoted (s : string) : string :=
  String Json.dquote (String.append s (String Json.dquote EmptyString)).

(** The bodies ["1"] (a list), {"error":"nope"} (an object) and oops
    (not JSON). *)
Definition status_body : string :=
  String.append "[" (String.append (quoted "1") "]").
Definition error_body : string :=
  String.append "{" (String.append (quoted "error")
    (String.append ":" (String.append (quoted "nope") "}"))).
Definition plain_body : string := "oops".

(** An environment whose clock returns the listed floats one after the
    other and whose server gives one answer to every request. *)
Definition scripted (times : list spec_float) (r : Response) : Env :=
  {| clock := fun n => nth n times (S754_zero false);
     server := fun _ => Return r |}.

Definition fresh : World := {| ticks := 0; sent := [] |}.

(** A client as [Client("k", "abc")] builds it, and one built without
    credentials. *)
Definition signed_client : Client :=
  {| base_url := "https://api.bitfinex.com/"; key := VStr "k";
     secret := VStr "abc"; nonce_multiplier := Float.one |}.

Definition anonymous_client : Client :=
  {| base_url := "https://api.bitfinex.com/"; key := VNone;
     secret := VNone; nonce_multiplier := Float.one |}.

(** The float 1700000000.0, a Unix time in late 2023, and the two
    neighbouring floats 1700000000 + 5 * 2^-22 and 1700000000 + 6 * 2^-22. *)
Definition t_2023 : spec_float := Float.of_Z 1700000000.
Definition t_near : spec_float := S754_finite false 7130316800000005 (-22).
Definition t_next : spec_float := S754_finite false 7130316800000006 (-22).
Definition three : spec_float := Float.of_Z 3.
(* ===================================================================== *)
(** ** Further library behaviour used by the endpoint methods *)
(* ===================================================================== *)

Module PyText.

(** [sep.join(items)] on strings. *)
Fixpoint join_strs (sep : string) (items : list string) : string :=
  match items with
  | [] => ""
  | s :: rest =>
      match rest with
      | [] => s
      | _ :: _ => String.append s (String.append sep (join_strs sep rest))
      end
  end.

(** The items of a list as strings, as [join] reads them: the first
    item that is not a [str] raises [TypeError] with its index. *)
Fixpoint strs_of (items : list value) (index : nat) : outcome (list string) :=
  match items with
  | [] => Return []
  | VStr s :: rest =>
      match strs_of rest (S index) with
      | Return l => Return (s :: l)
      | Raise e => Raise e
      end
  | v :: _ =>
      Raise (TypeError
        (String.append "sequence item "
          (String.append (Float.dec_string (Z.of_nat index))
            (String.append ": expected str instance, "
              (String.append (type_name v) " found")))))
  end.

(** [sep.join(items)] on a list of values. *)
Definition join (sep : string) (items : list value) : outcome string :=
  match strs_of items 0 with
  | Return l => Return (join_strs sep l)
  | Raise e => Raise e
  end.

(** [l.pop()]: the last item and the list without it. *)
Definition pop {A} (l : list A) : outcome (A * list A) :=
  match rev l with
  | [] => Raise (IndexError "pop from empty list")
  | x :: r => Return (x, rev r)
  end.

(** *** [json.dumps] with its default settings *)

(** The code points of a text, from its UTF-8 bytes. *)
Fixpoint code_points (bs : list Z) : list Z :=
  match bs with
  | [] => []
  | b0 :: rest =>
      if b0 <? 0x80 then b0 :: code_points rest
      else if b0 <? 0xE0 then
        match rest with
        | b1 :: rest1 =>
            Z.lor (Z.shiftl (Z.land b0 0x1F) 6) (Z.land b1 0x3F)
              :: code_points rest1
        | [] => [b0]
        end
      else if b0 <? 0xF0 then
        match rest with
        | b1 :: b2 :: rest2 =>
            Z.lor (Z.shiftl (Z.land b0 0x0F) 12)
              (Z.lor (Z.shiftl (Z.land b1 0x3F) 6) (Z.land b2 0x3F))
              :: code_points rest2
        | _ => [b0]
        end
      else
        match rest with
        | b1 :: b2 :: b3 :: rest3 =>
            Z.lor (Z.shiftl (Z.land b0 0x07) 18)
              (Z.lor (Z.shiftl (Z.land b1 0x3F) 12)
                 (Z.lor (Z.shiftl (Z.land b2 0x3F) 6) (Z.land b3 0x3F)))
              :: code_points rest3
        | _ => [b0]
        end
  end.

Definition backslashed (c : ascii) : string :=
  String Json.backslash (String c EmptyString).

(** [\uXXXX] with four lowercase hexadecimal digits. *)
Definition u_escape (n : Z) : string :=
  String.append (backslashed "u")
    (string_of_list_ascii
       [ Hmac.hex_digit (n / 4096 mod 16); Hmac.hex_digit (n / 256 mod 16);
         Hmac.hex_digit (n / 16 mod 16); Hmac.hex_digit (n mod 16) ]).

(** One code point inside a JSON string, with [ensure_ascii]. *)
Definition escape (cp : Z) : string :=
  if cp =? 0x22 then backslashed Json.dquote
  else if cp =? 0x5C then backslashed Json.backslash
  else if cp =? 0x0A then backslashed "n"
  else if cp =? 0x0D then backslashed "r"
  else if cp =? 0x09 then backslashed "t"
  else if cp =? 0x08 then backslashed "b"
  else if cp =? 0x0C then backslashed "f"
  else if (0x20 <=? cp) && (cp <=? 0x7E) then
    String (ascii_of_nat (Z.to_nat cp)) EmptyString
  else if cp <? 0x10000 then u_escape cp
  else
    String.append
      (u_escape (Z.lor 0xD800 (Z.shiftr (cp - 0x10000) 10)))
      (u_escape (Z.lor 0xDC00 (Z.land (cp - 0x10000) 0x3FF))).

Definition quote (s : string) : string :=
  String Json.dquote
    (String.append
       (String.concat "" (map escape (code_points (map byte_to_Z (encode_utf8 s)))))
       (String Json.dquote EmptyString)).

Definition int_str (z : Z) : string :=
  if z <? 0 then String.append "-" (Float.dec_string (- z))
  else Float.dec_string z.

Section Dumps.

Variable float_str : spec_float -> string.

Definition float_json (x : spec_float) : string :=
  match x with
  | S754_nan => "NaN"
  | S754_infinity false => "Infinity"
  | S754_infinity true => "-Infinity"
  | _ => float_str x
  end.

Fixpoint dumps (v : value) : string :=
  match v with
  | VNone => "null"
  | VBool true => "true"
  | VBool false => "false"
  | VInt z => int_str z
  | VFloat x => float_json x
  | VStr s => quote s
  | VList items =>
      String.append "["
        (String.append
           ((fix go (l : list value) : string :=
               match l with
               | [] => ""
               | x :: l' =>
                   String.append (dumps x)
                     match l' with
                     | [] => ""
                     | _ :: _ => String.append ", " (go l')
                     end
               end) items)
           "]")
  | VDict members =>
      String.append "{"
        (String.append
           ((fix go (l : list (string * value)) : string :=
               match l with
               | [] => ""
               | (k, x) :: l' =>
                   String.append (quote k)
                     (String.append ": "
                        (String.append (dumps x)
                           match l' with
                           | [] => ""
                           | _ :: _ => String.append ", " (go l')
                           end))
               end) members)
           "}")
  end.

End Dumps.

End PyText.

(* ===================================================================== *)
(** ** Reading a float back from its text *)
(* ===================================================================== *)

(** [float(s)] for the texts that [repr] of a float produces, and more
    generally for an optional sign followed by inf, infinity, nan, or by
    decimal digits with an optional point and an optional exponent.  The
    result is the binary64 float nearest to the decimal value, ties to
    even, and an infinity on overflow; [None] stands for a text that
    [float] refuses or that lies outside this fragment (white space,
    underscores, other spellings of inf and nan). *)

Module PyFloat.

(** The leading digits of [s] appended to the number [acc]: the number,
    how many digits were read, and the rest of the text. *)
Fixpoint read_digits (s : string) (acc count : Z) : Z * Z * string :=
  match s with
  | String c rest =>
      if Json.is_digit c
      then read_digits rest (10 * acc + Json.digit_value c) (count + 1)
      else (acc, count, s)
  | EmptyString => (acc, count, s)
  end.

Definition read_sign (s : string) : bool * string :=
  match s with
  | String c rest =>
      if Ascii.eqb c "-" then (true, rest)
      else if Ascii.eqb c "+" then (false, rest)
      else (false, s)
  | EmptyString => (false, s)
  end.

(** The float nearest to [n * 10^e], for [n >= 0]. *)
Definition of_decimal (sign : bool) (n e : Z) : spec_float :=
  if n =? 0 then S754_zero sign
  else
    let p := n * 10 ^ Z.max e 0 in
    let q := 10 ^ Z.max (- e) 0 in
    let '(mz, ez, lz) := SFdiv_core_binary Float.prec Float.emax p 0 q 0 in
    binary_round_aux Float.prec Float.emax sign mz ez lz.

Definition of_str (s : string) : option spec_float :=
  let '(sign, s1) := read_sign s in
  if String.eqb s1 "inf" || String.eqb s1 "infinity" then
    Some (S754_infinity sign)
  else if String.eqb s1 "nan" then Some S754_nan
  else
    let '(whole, n_whole, s2) := read_digits s1 0 0 in
    let '(all, n_frac, s3) :=
      match s2 with
      | String c rest =>
          if Ascii.eqb c "." then read_digits rest whole 0 else (whole, 0, s2)
      | EmptyString => (whole, 0, s2)
      end in
    if n_whole + n_frac =? 0 then None
    else
      match s3 with
      | EmptyString => Some (of_decimal sign all (- n_frac))
      | String c rest =>
          if Ascii.eqb c "e" || Ascii.eqb c "E" then
            let '(negative, s4) := read_sign rest in
            let '(ex, n_ex, s5) := read_digits s4 0 0 in
            if (n_ex =? 0) || negb (String.eqb s5 "") then None
            else Some (of_decimal sign all
                         ((if negative then - ex else ex) - n_frac))
          else None
      end.

End PyFloat.

(* ===================================================================== *)
(** ** The endpoint methods of [Client] *)
(* ===================================================================== *)

(** *** Methods that go through [_get] *)

(** Arguments that the docstrings type as [str] are strings here, so
    that [format] inserts them as they are.  The keyword arguments of a
    method are the [dict] that Python binds at the call, in the order of
    the call: its keys are distinct and none of them is the name of a
    parameter of the method, since such a call is refused before the
    body runs. *)

Definition platform_status (self : Client) : M value :=
  let path := "v2/platform/status" in
  response <- _get self path [] ;;
  ret response.

(** [tickers]: the two assertions, then the symbols joined by commas
    inside the path. *)
Definition tickers (self : Client) (symbol_list : value) : M value :=
  match symbol_list with
  | VList items =>
      match items with
      | [] => raise (AssertionError "symbol_list must have at least one symbol")
      | _ :: _ =>
          joined <- lift (PyText.join "," items) ;;
          path <- lift (Py.format "v2/tickers?symbols={}" [joined]) ;;
          response <- _get self path [] ;;
          ret response
      end
  | _ => raise (AssertionError "symbol_list must be of type list")
  end.

Definition ticker (self : Client) (symbol : string) : M value :=
  path <- lift (Py.format "v2/ticker/{}" [symbol]) ;;
  response <- _get self path [] ;;
  ret response.

Definition trades (self : Client) (symbol : string) : M value :=
  path <- lift (Py.format "v2/trades/{}/hist" [symbol]) ;;
  response <- _get self path [] ;;
  ret response.

(** [books(symbol, precision="P0")]; an omitted argument is [None]. *)
Definition books (self : Client) (symbol : string) (precision : option string)
  : M value :=
  let precision := default "P0" precision in
  let path := String.append "v2/book/"
                (String.append symbol (String.append "/" precision)) in
  response <- _get self path [] ;;
  ret response.

(** [self._get(path, **kwargs)], a call with unpacked keywords: a
    keyword named path collides with the positional argument and the
    call itself is refused. *)
Definition get_with_keywords (self : Client) (path : string)
           (kwargs : list (string * value)) : M value :=
  if existsb (fun kv => String.eqb (fst kv) "path") kwargs then
    raise (TypeError "Client._get() got multiple values for argument 'path'")
  else _get self path kwargs.

(** [candles]: the last positional argument is the section, the others
    are appended to the path behind colons; the keyword arguments become
    the query parameters. *)
Definition candles (self : Client) (args : list string)
           (kwargs : list (string * value)) : M value :=
  let margs := args in
  popped <- lift (PyText.pop margs) ;;
  let section := fst popped in
  let margs := snd popped in
  let path := "v2/candles/trade" in
  let path := fold_left
                (fun path arg => String.append (String.append path ":") arg)
                margs path in
  suffix <- lift (Py.format "/{}" [section]) ;;
  let path := String.append path suffix in
  response <- get_with_keywords self path kwargs ;;
  ret response.

(** *** [stats], which can also raise [KeyError] *)

(** Exceptions beyond those of the core: what the endpoint layer adds. *)
Inductive failure :=
| Raised (e : exn)
| KeyError (key : string)
| NotImplementedError
| UnboundLocalError (name : string).

Inductive result (A : Type) :=
| Done (a : A)
| Failed (f : failure).
Arguments Done {A} a.
Arguments Failed {A} f.

Definition E (A : Type) : Type := Env -> World -> result A * World.

Definition done {A} (a : A) : E A := fun _ w => (Done a, w).
Definition fail {A} (f : failure) : E A := fun _ w => (Failed f, w).
Definition pure {A} (r : result A) : E A := fun _ w => (r, w).

Definition bindE {A B} (c : E A) (k : A -> E B) : E B :=
  fun env w =>
    match c env w with
    | (Done a, w') => k a env w'
    | (Failed f, w') => (Failed f, w')
    end.

Notation "x <~ c ;; k" := (bindE c (fun x => k))
  (at level 100, c at next level, right associativity).

(** A computation of the core inside the endpoint layer. *)
Definition core {A} (c : M A) : E A :=
  fun env w =>
    match c env w with
    | (Return a, w') => (Done a, w')
    | (Raise e, w') => (Failed (Raised e), w')
    end.

(** [d[k]] *)
Fixpoint getitem {A} (d : list (string * A)) (k : string) : result A :=
  match d with
  | [] => Failed (KeyError k)
  | (k', v) :: d' => if String.eqb k' k then Done v else getitem d' k
  end.

Definition is_name_start (c : ascii) : bool :=
  let n := nat_of_ascii c in
  ((65 <=? n) && (n <=? 90) || (97 <=? n) && (n <=? 122) || (n =? 95))%nat.

Definition is_name_char (c : ascii) : bool :=
  is_name_start c || Json.is_digit c.

(** A string with one more character at its end. *)
Fixpoint snoc (s : string) (c : ascii) : string :=
  match s with
  | EmptyString => String c EmptyString
  | String a s' => String a (snoc s' c)
  end.

(** [template.format(name=value, ...)] for templates made of literal
    text, the escapes [{{] and [}}], and fields [{name}] whose name is
    an ASCII identifier; the values are [str].  [field] is the part of a
    field name read so far. *)
Fixpoint format_fields (template : string) (field : option string)
         (kwargs : list (string * string)) : result string :=
  let literal (c : ascii) (tail : result string) :=
    match tail with
    | Done s => Done (String c s)
    | Failed f => Failed f
    end in
  match template with
  | EmptyString =>
      match field with
      | None => Done EmptyString
      | Some _ => Failed (Raised (ValueError "expected '}' before end of string"))
      end
  | String c rest =>
      match field with
      | None =>
          if Ascii.eqb c "{" then
            match rest with
            | EmptyString =>
                Failed (Raised (ValueError "Single '{' encountered in format string"))
            | String c' rest' =>
                if Ascii.eqb c' "{" then literal c (format_fields rest' None kwargs)
                else format_fields rest (Some EmptyString) kwargs
            end
          else if Ascii.eqb c "}" then
            match rest with
            | String c' rest' =>
                if Ascii.eqb c' "}" then literal c (format_fields rest' None kwargs)
                else Failed (Raised (ValueError "Single '}' encountered in format string"))
            | EmptyString =>
                Failed (Raised (ValueError "Single '}' encountered in format string"))
            end
          else literal c (format_fields rest None kwargs)
      | Some name =>
          if Ascii.eqb c "}" then
            if String.eqb name "" then
              Failed (Raised (IndexError
                "Replacement index 0 out of range for positional args tuple"))
            else
              match getitem kwargs name with
              | Done v =>
                  match format_fields rest None kwargs with
                  | Done s => Done (String.append v s)
                  | Failed f => Failed f
                  end
              | Failed f => Failed f
              end
          else if (if String.eqb name "" then is_name_start c else is_name_char c)
          then format_fields rest (Some (snoc name c)) kwargs
          else Failed (Raised (ValueError "format field outside the modelled fragment"))
      end
  end.

Definition format_named (template : string) (kwargs : list (string * string))
  : result string :=
  format_fields template None kwargs.

(** [stats], its keyword arguments being [str] as the docstring
    types them.  [custom_stats_url] is a local that only the
    three conditionals assign, so reading it can fail. *)
Definition stats (self : Client) (kwargs : list (string * string)) : E value :=
  let key_values :=
    ["funding.size"; "credits.size"; "credits.size.sym"; "pos.size"] in
  key <~ pure (getitem kwargs "key") ;;
  if negb (existsb (String.eqb key) key_values) then
    let key_values := PyText.join_strs " " key_values in
    msg <~ core (lift (Py.format
                   "Key must have one of the following values : {}" [key_values])) ;;
    fail (Raised (ValueError msg))
  else
    key <~ pure (getitem kwargs "key") ;;
    size <~ pure (getitem kwargs "size") ;;
    symbol <~ pure (getitem kwargs "symbol") ;;
    common_stats_url <~ pure (format_named "v2/stats1/{key}:{size}:{symbol}"
                          [("key", key); ("size", size); ("symbol", symbol)]) ;;
    let custom_stats_url : option string := None in
    key <~ pure (getitem kwargs "key") ;;
    custom_stats_url <~
      (if String.eqb key "pos.size" then
         side <~ pure (getitem kwargs "side") ;;
         section <~ pure (getitem kwargs "section") ;;
         sort <~ pure (getitem kwargs "sort") ;;
         url <~ pure (format_named ":{side}/{section}?sort={sort}"
                  [("side", side); ("section", section); ("sort", sort)]) ;;
         done (Some url)
       else done custom_stats_url) ;;
    key <~ pure (getitem kwargs "key") ;;
    custom_stats_url <~
      (if existsb (String.eqb key) ["funding.size"; "credits.size"] then
         section <~ pure (getitem kwargs "section") ;;
         sort <~ pure (getitem kwargs "sort") ;;
         url <~ pure (format_named "/{section}?sort={sort}"
                  [("section", section); ("sort", sort)]) ;;
         done (Some url)
       else done custom_stats_url) ;;
    key <~ pure (getitem kwargs "key") ;;
    custom_stats_url <~
      (if String.eqb key "credits.size.sym" then
         symbol2 <~ pure (getitem kwargs "symbol2") ;;
         section <~ pure (getitem kwargs "section") ;;
         sort <~ pure (getitem kwargs "sort") ;;
         url <~ pure (format_named ":{symbol2}/{section}?sort={sort}"
                  [("symbol2", symbol2); ("section", section); ("sort", sort)]) ;;
         done (Some url)
       else done custom_stats_url) ;;
    custom_stats_url <~
      match custom_stats_url with
      | Some url => done url
      | None => fail (UnboundLocalError "custom_stats_url")
      end ;;
    let path := PyText.join_strs "" [common_stats_url; custom_stats_url] in
    response <~ core (_get self path []) ;;
    done response.

(** [user_settings_write] and [user_settings_delete] only raise. *)
Definition user_settings_write (self : Client) (pkey : string) : E value :=
  fail NotImplementedError.

Definition user_settings_delete (self : Client) (pkey : string) : E value :=
  fail NotImplementedError.

(** *** Methods that go through [_post] *)

Section PrivateEndpoints.

Variable float_str : spec_float -> string.

Definition json_dumps : value -> string := PyText.dumps float_str.

Definition market_average_price (self : Client) (kwargs : list (string * value))
  : M value :=
  let body := VDict kwargs in
  let raw_body := json_dumps body in
  let path := "v2/calc/trade/avg" in
  response <- _post float_str self path raw_body true ;;
  ret response.

Definition foreign_exchange_rate (self : Client) (kwargs : list (string * value))
  : M value :=
  let body := VDict kwargs in
  let raw_body := json_dumps body in
  let path := "v2/calc/fx" in
  response <- _post float_str self path raw_body true ;;
  ret response.

Definition wallets_balance (self : Client) : M value :=
  let body := VDict [] in
  let raw_body := json_dumps body in
  let path := "v2/auth/r/wallets" in
  response <- _post float_str self path raw_body true ;;
  ret response.

(** [active_orders(trade_pair="")] *)
Definition active_orders (self : Client) (trade_pair : option string) : M value :=
  let trade_pair := default "" trade_pair in
  let body := VDict [] in
  let raw_body := json_dumps body in
  path <- lift (Py.format "v2/auth/r/orders/{}" [trade_pair]) ;;
  response <- _post float_str self path raw_body true ;;
  ret response.

Definition orders_history (self : Client) (trade_pair : string)
           (kwargs : list (string * value)) : M value :=
  let body := VDict kwargs in
  let raw_body := json_dumps body in
  path <- lift (Py.format "v2/auth/r/orders/{}/hist" [trade_pair]) ;;
  response <- _post float_str self path raw_body true ;;
  ret response.

Definition trades_history (self : Client) (trade_pair : string)
           (kwargs : list (string * value)) : M value :=
  let body := VDict kwargs in
  let raw_body := json_dumps body in
  path <- lift (Py.format "v2/auth/r/trades/{}/hist" [trade_pair]) ;;
  response <- _post float_str self path raw_body true ;;
  ret response.

Definition active_positions (self : Client) : M value :=
  let body := VDict [] in
  let raw_body := json_dumps body in
  let path := "v2/auth/r/positions" in
  response <- _post float_str self path raw_body true ;;
  ret response.

(** [funding_offers(symbol="")] *)
Definition funding_offers (self : Client) (symbol : option string) : M value :=
  let symbol := default "" symbol in
  let body := VDict [] in
  let raw_body := json_dumps body in
  path <- lift (Py.format "v2/auth/r/funding/offers/{}" [symbol]) ;;
  response <- _post float_str self path raw_body true ;;
  ret response.

(** ["{}/".format(symbol) if symbol else ""] *)
Definition add_symbol_of (symbol : string) : outcome string :=
  if negb (String.eqb symbol "") then Py.format "{}/" [symbol] else Return "".

Definition funding_offers_history (self : Client) (symbol : option string)
           (kwargs : list (string * value)) : M value :=
  let symbol := default "" symbol in
  let body := VDict kwargs in
  let raw_body := json_dumps body in
  add_symbol <- lift (add_symbol_of symbol) ;;
  path <- lift (Py.format "v2/auth/r/funding/offers/{}hist" [add_symbol]) ;;
  response <- _post float_str self path raw_body true ;;
  ret response.

Definition funding_loans (self : Client) (symbol : option string) : M value :=
  let symbol := default "" symbol in
  let body := VDict [] in
  let raw_body := json_dumps body in
  path <- lift (Py.format "v2/auth/r/funding/loans/{}" [symbol]) ;;
  response <- _post float_str self path raw_body true ;;
  ret response.

Definition funding_loans_history (self : Client) (symbol : option string)
           (kwargs : list (string * value)) : M value :=
  let symbol := default "" symbol in
  let body := VDict kwargs in
  let raw_body := json_dumps body in
  add_symbol <- lift (add_symbol_of symbol) ;;
  path <- lift (Py.format "v2/auth/r/funding/loans/{}hist" [add_symbol]) ;;
  response <- _post float_str self path raw_body true ;;
  ret response.

Definition funding_credits (self : Client) (symbol : option string) : M value :=
  let symbol := default "" symbol in
  let body := VDict [] in
  let raw_body := json_dumps body in
  path <- lift (Py.format "v2/auth/r/funding/credits/{}" [symbol]) ;;
  response <- _post float_str self path raw_body true ;;
  ret response.

Definition funding_credits_history (self : Client) (symbol : option string)
           (kwargs : list (string * value)) : M value :=
  let symbol := default "" symbol in
  let body := VDict kwargs in
  let raw_body := json_dumps body in
  add_symbol <- lift (add_symbol_of symbol) ;;
  path <- lift (Py.format "v2/auth/r/funding/credits/{}hist" [add_symbol]) ;;
  response <- _post float_str self path raw_body true ;;
  ret response.

Definition funding_trades (self : Client) (symbol : option string)
           (kwargs : list (string * value)) : M value :=
  let symbol := default "" symbol in
  let body := VDict kwargs in
  let raw_body := json_dumps body in
  add_symbol <- lift (add_symbol_of symbol) ;;
  path <- lift (Py.format "v2/auth/r/funding/trades/{}hist" [add_symbol]) ;;
  response <- _post float_str self path raw_body true ;;
  ret response.

(** [margin_info(tradepair="base")] *)
Definition margin_info (self : Client) (tradepair : option string) : M value :=
  let tradepair := default "base" tradepair in
  let body := VDict [] in
  let raw_body := json_dumps body in
  path <- lift (Py.format "v2/auth/r/info/margin/{}" [tradepair]) ;;
  response <- _post float_str self path raw_body true ;;
  ret response.

Definition funding_info (self : Client) (tradepair : string) : M value :=
  let body := VDict [] in
  let raw_body := json_dumps body in
  path <- lift (Py.format "v2/auth/r/info/funding/{}" [tradepair]) ;;
  response <- _post float_str self path raw_body true ;;
  ret response.

(** [performance(period="1D")] *)
Definition performance (self : Client) (period : option string) : M value :=
  let period := default "1D" period in
  let body := VDict [] in
  let raw_body := json_dumps body in
  path <- lift (Py.format "v2/auth/r/stats/perf:{}/hist" [period]) ;;
  response <- _post float_str self path raw_body true ;;
  ret response.

Definition alert_list (self : Client) : M value :=
  let body := VDict [("type", VStr "price")] in
  let raw_body := json_dumps body in
  let path := "v2/auth/r/alerts" in
  response <- _post float_str self path raw_body true ;;
  ret response.

Definition alert_set (self : Client) (alert_type symbol price : value)
  : M value :=
  let body := VDict [("type", alert_type); ("symbol", symbol); ("price", price)] in
  let raw_body := json_dumps body in
  let path := "v2/auth/w/alert/set" in
  response <- _post float_str self path raw_body true ;;
  ret response.

Definition calc_available_balance (self : Client)
           (symbol direction rate order_type : value) : M value :=
  let body := VDict [("symbol", symbol); ("dir", direction);
                     ("rate", rate); ("type", order_type)] in
  let raw_body := json_dumps body in
  let path := "v2/auth/calc/order/avail" in
  response <- _post float_str self path raw_body true ;;
  ret response.

Definition user_settings_read (self : Client) (pkey : string) : M value :=
  key <- lift (Py.format "api:{}" [pkey]) ;;
  let body := VDict [("keys", VList [VStr key])] in
  let raw_body := json_dumps body in
  let path := "v2/auth/r/settings" in
  response <- _post float_str self path raw_body true ;;
  ret response.

End PrivateEndpoints.

(** *** The calls a user can make *)

(** One constructor per modelled method that goes through [_get]. *)
Inductive public_call :=
| PlatformStatus
| Tickers (symbol_list : value)
| Ticker (symbol : string)
| Trades (symbol : string)
| Books (symbol : string) (precision : option string)
| Stats (kwargs : list (string * string))
| Candles (args : list string) (kwargs : list (string * value)).

Definition perform_public (self : Client) (c : public_call) : E value :=
  match c with
  | PlatformStatus => core (platform_status self)
  | Tickers symbol_list => core (tickers self symbol_list)
  | Ticker symbol => core (ticker self symbol)
  | Trades symbol => core (trades self symbol)
  | Books symbol precision => core (books self symbol precision)
  | Stats kwargs => stats self kwargs
  | Candles args kwargs => core (candles self args kwargs)
  end.

(** One constructor per modelled method that goes through [_post]. *)
Inductive private_call :=
| MarketAveragePrice (kwargs : list (string * value))
| ForeignExchangeRate (kwargs : list (string * value))
| WalletsBalance
| ActiveOrders (trade_pair : option string)
| OrdersHistory (trade_pair : string) (kwargs : list (string * value))
| TradesHistory (trade_pair : string) (kwargs : list (string * value))
| ActivePositions
| FundingOffers (symbol : option string)
| FundingOffersHistory (symbol : option string) (kwargs : list (string * value))
| FundingLoans (symbol : option string)
| FundingLoansHistory (symbol : option string) (kwargs : list (string * value))
| FundingCredits (symbol : option string)
| FundingCreditsHistory (symbol : option string) (kwargs : list (string * value))
| FundingTrades (symbol : option string) (kwargs : list (string * value))
| MarginInfo (tradepair : option string)
| FundingInfo (tradepair : string)
| Performance (period : option string)
| AlertList
| AlertSet (alert_type symbol price : value)
| CalcAvailableBalance (symbol direction rate order_type : value)
| UserSettingsRead (pkey : string).

Definition perform_private (float_str : spec_float -> string) (self : Client)
           (c : private_call) : M value :=
  match c with
  | MarketAveragePrice kwargs => market_average_price float_str self kwargs
  | ForeignExchangeRate kwargs => foreign_exchange_rate float_str self kwargs
  | WalletsBalance => wallets_balance float_str self
  | ActiveOrders trade_pair => active_orders float_str self trade_pair
  | OrdersHistory trade_pair kwargs => orders_history float_str self trade_pair kwargs
  | TradesHistory trade_pair kwargs => trades_history float_str self trade_pair kwargs
  | ActivePositions => active_positions float_str self
  | FundingOffers symbol => funding_offers float_str self symbol
  | FundingOffersHistory symbol kwargs =>
      funding_offers_history float_str self symbol kwargs
  | FundingLoans symbol => funding_loans float_str self symbol
  | FundingLoansHistory symbol kwargs =>
      funding_loans_history float_str self symbol kwargs
  | FundingCredits symbol => funding_credits float_str self symbol
  | FundingCreditsHistory symbol kwargs =>
      funding_credits_history float_str self symbol kwargs
  | FundingTrades symbol kwargs => funding_trades float_str self symbol kwargs
  | MarginInfo tradepair => margin_info float_str self tradepair
  | FundingInfo tradepair => funding_info float_str self tradepair
  | Performance period => performance float_str self period
  | AlertList => alert_list float_str self
  | AlertSet alert_type symbol price => alert_set float_str self alert_type symbol price
  | CalcAvailableBalance symbol direction rate order_type =>
      calc_available_balance float_str self symbol direction rate order_type
  | UserSettingsRead pkey => user_settings_read float_str self pkey
  end.

(** *** Further fixtures of the worked examples *)

(** An environment whose transport fails on every request. *)
Definition unreachable (times : list spec_float) (e : exn) : Env :=
  {| clock := fun n => nth n times (S754_zero false);
     server := fun _ => Raise e |}.

(** A client whose secret is the integer 5. *)
Definition miskeyed_client : Client :=
  {| base_url := "https://api.bitfinex.com/"; key := VStr "k";
     secret := VInt 5; nonce_multiplier := Float.one |}.

Definition with_multiplier (m : spec_float) : Client :=
  {| base_url := "https://api.bitfinex.com/"; key := VStr "k";
     secret := VStr "abc"; nonce_multiplier := m |}.

(** A symbol without a comma, and the two shapes of what follows a
    symbol in a comma-joined text. *)
Definition comma_free (s : string) : Prop :=
  forallb (fun c => negb (Ascii.eqb c ",")) (list_ascii_of_string s) = true.

Definition tail_like (x : string) : Prop :=
  x = "" \/ exists y, x = String "," y.

(** Keyword arguments of a [stats] call and of a [foreign_exchange_rate]
    call. *)
Definition position_stats : list (string * string) :=
  [("key", "pos.size"); ("size", "1m"); ("symbol", "tBTCUSD");
   ("side", "long"); ("section", "hist"); ("sort", "1")].

Definition fx_arguments : list (string * value) :=
  [("ccy1", VStr "BTC"); ("ccy2", VStr "USD")].
(* ===================================================================== *)
(** ** Properties of the library models *)
(* ===================================================================== *)

Lemma append_cons (c : ascii) (s t : string) :
  String.append (String c s) t = String c (String.append s t).
Proof. reflexivity. Qed.

Lemma append_empty_r (s : string) : String.append s "" = s.
Proof.
  induction s as [|c s IH]; [reflexivity|].
  now rewrite append_cons, IH.
Qed.

Lemma encode_utf8_append (s t : string) :
  encode_utf8 (String.append s t) = encode_utf8 s ++ encode_utf8 t.
Proof.
  unfold encode_utf8, list_byte_of_string.
  induction s as [|c s IH]; [reflexivity|].
  rewrite append_cons. simpl. now rewrite IH.
Qed.

(** The template of [_headers] puts its three arguments one after the
    other behind the prefix. *)
Lemma format_api (path nonce body : string) :
  Py.format "/api/{}{}{}" [path; nonce; body]
  = Return (String.append "/api/"
              (String.append path (String.append nonce body))).
Proof. simpl. rewrite append_empty_r. reflexivity. Qed.

Lemma to_bytes_length (w : Z) : length (W64.to_bytes w) = 8%nat.
Proof. reflexivity. Qed.

Lemma sha384_digest_length (msg : bytes) :
  length (Sha384.digest msg) = Sha384.digest_size.
Proof.
  unfold Sha384.digest, Sha384.output.
  now rewrite !length_app, !to_bytes_length.
Qed.

Lemma hmac_digest_length (k msg : bytes) :
  length (Hmac.digest k msg) = Sha384.digest_size.
Proof. unfold Hmac.digest. apply sha384_digest_length. Qed.

Lemma hex_length (bs : bytes) :
  String.length (Hmac.hex bs) = (2 * length bs)%nat.
Proof. induction bs as [|b bs IH]; simpl; [reflexivity | rewrite IH; lia]. Qed.

Lemma hex_lowercase (bs : bytes) :
  forallb Hmac.is_lower_hex (list_ascii_of_string (Hmac.hex bs)) = true.
Proof.
  induction bs as [|b bs IH]; [reflexivity|].
  cbn [Hmac.hex list_ascii_of_string forallb]. rewrite IH.
  destruct b; reflexivity.
Qed.

(* ===================================================================== *)
(** ** Multiplication by one and by powers of two is exact *)
(* ===================================================================== *)

Lemma mul_pow2_pos (m : positive) :
  Pos.mul m 4503599627370496 = Pos.iter xO m 52.
Proof. rewrite Pos.mul_comm. reflexivity. Qed.

Lemma digits_shift52 (m : positive) :
  Zpos (digits2_pos (Pos.iter xO m 52)) = Zpos (digits2_pos m) + 52.
Proof. cbn [Pos.iter digits2_pos]. lia. Qed.

Lemma shr_52 (m : positive) (e : Z) :
  shr (Build_shr_record (Zpos (Pos.iter xO m 52)) false false) e 52
  = (Build_shr_record (Zpos m) false false, e + 52).
Proof. reflexivity. Qed.

(** Rounding [m * 2^52] at exponent [e - 52] gives back [m] at exponent
    [e] when [e] is the canonical exponent of the result, or overflows. *)
Lemma round_shifted (s : bool) (m : positive) (e : Z) :
  fexp 53 1024 (Zpos (digits2_pos m) + e) = e ->
  binary_round_aux 53 1024 s (Zpos (Pos.iter xO m 52)) (e - 52) loc_Exact
  = if e <=? 971 then S754_finite s m e else S754_infinity s.
Proof.
  intros Hc. unfold binary_round_aux, shr_fexp.
  unfold Zdigits2 at 1. rewrite digits_shift52.
  replace (Zpos (digits2_pos m) + 52 + (e - 52)) with (Zpos (digits2_pos m) + e) by lia.
  rewrite Hc. replace (e - (e - 52)) with 52 by lia.
  cbn [shr_record_of_loc]. rewrite shr_52.
  cbn [shr_m loc_of_shr_record round_nearest_even Zdigits2].
  replace (e - 52 + 52) with e by lia.
  rewrite Hc, Z.sub_diag. cbn [shr shr_record_of_loc shr_m].
  reflexivity.
Qed.

Lemma valid_finite_inv (s : bool) (m : positive) (e : Z) :
  Float.valid (S754_finite s m e) = true ->
  fexp 53 1024 (Zpos (digits2_pos m) + e) = e /\ e <= 971.
Proof.
  unfold Float.valid, valid_binary, bounded, canonical_mantissa.
  intros H. apply andb_prop in H as [H1 H2].
  apply Z.eqb_eq in H1. apply Z.leb_le in H2.
  split; [exact H1 | exact H2].
Qed.








(* ===================================================================== *)
(** ** Header construction *)
(* ===================================================================== *)

(** The headers [_headers] returns for a [str] secret. *)
Lemma headers_run (self : Client) (path nonce body s : string) env w :
  secret self = VStr s ->
  _headers self path nonce body env w =
  (Return ({[ "bfx-nonce" := VStr nonce;
              "bfx-apikey" := key self;
              "bfx-signature" :=
                VStr (Hmac.hexdigest (encode_utf8 s)
                        (encode_utf8 (String.append "/api/"
                           (String.append path (String.append nonce body)))));
              "content-type" := VStr "application/json" ]}
           : gmap string value), w).
Proof.
  intros Hs. unfold _headers, bind, lift, ret.
  rewrite format_api, Hs. reflexivity.
Qed.

(** Whatever [encode] raises on the secret comes out of [_headers]. *)
Lemma headers_raise (self : Client) (path nonce body : string) e env w :
  Py.encode (secret self) = Raise e ->
  _headers self path nonce body env w = (Raise e, w).
Proof.
  intros He. unfold _headers, bind, lift, ret.
  rewrite format_api, He. reflexivity.
Qed.

(** C1: for every path, nonce and body the string that is signed is
    "/api/" followed by the path, the nonce and the body with nothing
    in between; the bytes handed to HMAC are the concatenation of the
    four encodings; for path v2/auth/r/wallets, nonce 1000 and body {}
    the string is /api/v2/auth/r/wallets1000{}. *)
Theorem signing_string_is_concatenation :
  forall path nonce body : string,
    Py.format "/api/{}{}{}" [path; nonce; body]
      = Return (String.append "/api/"
                  (String.append path (String.append nonce body)))
    /\ (forall b k s m env w,
          exists h : gmap string value,
            _headers {| base_url := b; key := k; secret := VStr s;
                        nonce_multiplier := m |} path nonce body env w
              = (Return h, w)
            /\ h !! "bfx-signature"
               = Some (VStr (Hmac.hexdigest (encode_utf8 s)
                        (encode_utf8 "/api/" ++ encode_utf8 path
                           ++ encode_utf8 nonce ++ encode_utf8 body))))
    /\ Py.format "/api/{}{}{}" ["v2/auth/r/wallets"; "1000"; "{}"]
       = Return "/api/v2/auth/r/wallets1000{}".
Proof.
  intros path nonce body. split; [apply format_api|]. split.
  - intros b k s m env w. eexists. split.
    + apply headers_run with (s := s). reflexivity.
    + rewrite !encode_utf8_append. reflexivity.
  - reflexivity.
Qed.

(** C2: for every path, nonce and body, [_headers] of a client whose
    secret is a string returns exactly the four headers bfx-nonce (the
    nonce), bfx-apikey (the key), bfx-signature and content-type:
    application/json, where the signature is the lowercase hexadecimal
    rendering (96 digits) of HMAC-SHA384, keyed by the UTF-8 bytes of the
    secret, over the UTF-8 bytes of the signing string. *)
Theorem headers_carry_hmac_sha384_signature :
  forall b k (s path nonce body : string) m env w,
    let msg := encode_utf8 (String.append "/api/"
                 (String.append path (String.append nonce body))) in
    let block := Hmac.block_key (encode_utf8 s) in
    let mac := Sha384.digest (map (Hmac.xor_byte 0x5c) block ++
                 Sha384.digest (map (Hmac.xor_byte 0x36) block ++ msg)) in
    exists h : gmap string value,
      _headers {| base_url := b; key := k; secret := VStr s;
                  nonce_multiplier := m |} path nonce body env w
        = (Return h, w)
      /\ h !! "bfx-nonce" = Some (VStr nonce)
      /\ h !! "bfx-apikey" = Some k
      /\ h !! "bfx-signature" = Some (VStr (Hmac.hex mac))
      /\ h !! "content-type" = Some (VStr "application/json")
      /\ dom h = ({[ "bfx-nonce"; "bfx-apikey"; "bfx-signature";
                     "content-type" ]} : gset string)
      /\ String.length (Hmac.hex mac) = 96%nat
      /\ forallb Hmac.is_lower_hex (list_ascii_of_string (Hmac.hex mac)) = true.
Proof.
  intros b k s path nonce body m env w msg block mac.
  eexists. split; [apply headers_run with (s := s); reflexivity|].
  do 4 (split; [reflexivity|]).
  split; [|split].
  - rewrite !dom_insert_L, dom_singleton_L. set_solver.
  - rewrite hex_length. unfold mac. now rewrite sha384_digest_length.
  - apply hex_lowercase.
Qed.

(* ===================================================================== *)
(** ** Requests and response decoding *)
(* ===================================================================== *)

Section ClientProperties.

Variable float_str : spec_float -> string.

Lemma nonce_run (self : Client) env w :
  _nonce float_str self env w = (Return (nonce_at float_str self env w), after_tick w).
Proof. reflexivity. Qed.

(** [_get] issues one request and decodes the answer. *)
Lemma get_run (self : Client) (path : string) params env w :
  let req := get_call (String.append (base_url self) path) TIMEOUT params in
  _get self path params env w = (reply (server env req), after_issue w req).
Proof.
  intros req. unfold _get, bind, requests_get, issue. fold req.
  fold (after_issue w req).
  destruct (server env req) as [r|e]; [|reflexivity].
  unfold reply, decoded, try_except_JSONDecodeError, lift, raise, Response_json.
  destruct (status_code r =? 200); [reflexivity|].
  destruct (json r); reflexivity.
Qed.

(** [_post] with a [str] secret reads the clock, signs, issues one
    request and decodes the answer. *)
Lemma post_run (self : Client) (path payload s : string) verify env w :
  secret self = VStr s ->
  exists h : gmap string value,
    _headers self path (nonce_at float_str self env w) payload env (after_tick w)
      = (Return h, after_tick w)
    /\ let req := post_call (String.append (base_url self) path) h payload verify in
       _post float_str self path payload verify env w
       = (reply (server env req), after_issue (after_tick w) req).
Proof.
  intros Hs. eexists. split; [apply headers_run with (s := s); exact Hs|].
  intros req. unfold _post, bind. rewrite nonce_run.
  rewrite headers_run with (s := s) by exact Hs.
  unfold requests_post, issue. fold req. fold (after_issue (after_tick w) req).
  destruct (server env req) as [r|e]; [|reflexivity].
  unfold reply, decoded, try_except_JSONDecodeError, lift, raise, Response_json.
  destruct (status_code r =? 200); [reflexivity|].
  destruct (json r); reflexivity.
Qed.

(** [_post] stops in header construction when the secret cannot be
    encoded: the clock has been read, nothing has been sent. *)
Lemma post_unsigned (self : Client) (path payload : string) verify e env w :
  Py.encode (secret self) = Raise e ->
  _post float_str self path payload verify env w = (Raise e, after_tick w).
Proof.
  intros He. unfold _post, bind. rewrite nonce_run.
  now rewrite headers_raise with (e := e).
Qed.

Lemma reply_error_json (r : Response) (j : value) :
  status_code r <> 200 -> json r = Some j ->
  decoded r = Raise (BitfinexException
                       [VInt (status_code r); VStr (reason r); j]).
Proof.
  intros Hst Hj. unfold decoded.
  destruct (Z.eqb_spec (status_code r) 200) as [E|_]; [contradiction|].
  now rewrite Hj.
Qed.

Lemma reply_error_text (r : Response) :
  status_code r <> 200 -> json r = None ->
  decoded r = Raise (TypeError "'str' object is not callable").
Proof.
  intros Hst Hj. unfold decoded.
  destruct (Z.eqb_spec (status_code r) 200) as [E|_]; [contradiction|].
  now rewrite Hj.
Qed.

Lemma reply_ok (r : Response) :
  status_code r = 200 -> decoded r = Response_json r.
Proof. intros Hst. unfold decoded. now rewrite Hst. Qed.

(** C3: when the answer has a status other than 200 and a body that
    decodes as JSON, both [_get] and [_post] raise [BitfinexException]
    carrying the status code, the reason phrase and the decoded content;
    neither returns a value. *)
Theorem error_status_raises_with_json_content :
  forall (self : Client) (s path payload : string) params verify env w r j,
    status_code r <> 200 ->
    json r = Some j ->
    (server env (get_call (String.append (base_url self) path) TIMEOUT params)
       = Return r ->
     fst (_get self path params env w)
       = Raise (BitfinexException
                  [VInt (status_code r); VStr (reason r); j]))
    /\ (secret self = VStr s ->
        (forall h, server env (post_call (String.append (base_url self) path)
                                 h payload verify) = Return r) ->
        fst (_post float_str self path payload verify env w)
          = Raise (BitfinexException
                     [VInt (status_code r); VStr (reason r); j])).
Proof.
  intros self s path payload params verify env w r j Hst Hj. split.
  - intros Hsrv. rewrite get_run. cbn [fst]. rewrite Hsrv. cbn [reply].
    now apply reply_error_json.
  - intros Hs Hsrv.
    destruct (post_run self path payload s verify env w Hs) as (h & _ & Hrun).
    rewrite Hrun. cbn [fst]. rewrite Hsrv. cbn [reply].
    now apply reply_error_json.
Qed.

(** C6: when the answer has status 200, both [_get] and [_post] return
    what [response.json()] gives: the decoded body as it is, whatever
    JSON value it is. *)
Theorem ok_status_returns_decoded_json :
  forall (self : Client) (s path payload : string) params verify env w r j,
    status_code r = 200 ->
    json r = Some j ->
    (server env (get_call (String.append (base_url self) path) TIMEOUT params)
       = Return r ->
     fst (_get self path params env w) = Return j)
    /\ (secret self = VStr s ->
        (forall h, server env (post_call (String.append (base_url self) path)
                                 h payload verify) = Return r) ->
        fst (_post float_str self path payload verify env w) = Return j).
Proof.
  intros self s path payload params verify env w r j Hst Hj.
  assert (Hd : decoded r = Return j).
  { rewrite reply_ok by exact Hst. unfold Response_json. now rewrite Hj. }
  split.
  - intros Hsrv. rewrite get_run. cbn [fst]. now rewrite Hsrv.
  - intros Hs Hsrv.
    destruct (post_run self path payload s verify env w Hs) as (h & _ & Hrun).
    rewrite Hrun. cbn [fst]. now rewrite Hsrv.
Qed.

(** C7: the request that [_get] issues has no headers, and the whole
    run (request, result, final world) is the same whatever key and
    secret the client holds, for two client records with one base URL
    and for two clients as [__init__] builds them. *)
Theorem public_get_is_independent_of_credentials :
  forall b k1 s1 m1 k2 s2 m2 (path : string) params env w,
    _get {| base_url := b; key := k1; secret := s1; nonce_multiplier := m1 |}
         path params env w
    = _get {| base_url := b; key := k2; secret := s2; nonce_multiplier := m2 |}
           path params env w
    /\ sent (snd (_get {| base_url := b; key := k1; secret := s1;
                          nonce_multiplier := m1 |} path params env w))
       = sent w ++ [get_call (String.append b path) TIMEOUT params]
    /\ headers (get_call (String.append b path) TIMEOUT params) = None
    /\ (exists c1 c2,
          __init__ k1 s1 (VFloat m1) = Return c1
          /\ __init__ k2 s2 (VFloat m2) = Return c2
          /\ _get c1 path params env w = _get c2 path params env w).
Proof.
  intros. rewrite !get_run. split; [reflexivity|].
  split; [reflexivity|]. split; [reflexivity|].
  do 2 eexists. split; [reflexivity|]. split; [reflexivity|].
  now rewrite !get_run.
Qed.

(** C8: every request issued by [_get] carries the timeout 5.0, and
    every request issued by [_post] carries none. *)
Theorem get_has_timeout_post_has_none :
  forall (self : Client) (path payload : string) params verify env w,
    (exists req,
        sent (snd (_get self path params env w)) = sent w ++ [req]
        /\ method req = GET
        /\ timeout req = Some TIMEOUT)
    /\ TIMEOUT = Float.of_Z 5
    /\ (forall req,
          In req (sent (snd (_post float_str self path payload verify env w))) ->
          In req (sent w) \/ (method req = POST /\ timeout req = None))
    /\ (forall s, secret self = VStr s ->
          exists req,
            sent (snd (_post float_str self path payload verify env w))
              = sent w ++ [req]
            /\ method req = POST
            /\ timeout req = None).
Proof.
  intros self path payload params verify env w. split; [|split; [|split]].
  - rewrite get_run. eexists. repeat split.
  - reflexivity.
  - intros req Hin.
    destruct (secret self) as [| | | |s| |] eqn:Hs;
      try (rewrite post_unsigned with (e := AttributeError
             (String.append "'" (String.append (type_name (secret self))
                "' object has no attribute 'encode'"))) in Hin
             by (rewrite Hs; reflexivity);
           left; exact Hin).
    destruct (post_run self path payload s verify env w Hs) as (h & _ & Hrun).
    rewrite Hrun in Hin. cbn in Hin. apply in_app_or in Hin.
    destruct Hin as [Hin|[<-|[]]]; [now left|right]. split; reflexivity.
  - intros s Hs.
    destruct (post_run self path payload s verify env w Hs) as (h & _ & Hrun).
    rewrite Hrun. eexists. repeat split.
Qed.

(** C9: [_post] on a client whose secret is [None] raises
    [AttributeError] from [_headers], where the secret is encoded; the
    clock has been read and no request has been issued. *)
Theorem post_without_secret_raises_attribute_error :
  forall b k m (path payload : string) verify env w,
    let self := {| base_url := b; key := k; secret := VNone;
                   nonce_multiplier := m |} in
    let missing :=
      AttributeError "'NoneType' object has no attribute 'encode'" in
    (forall nonce env' w',
        _headers self path nonce payload env' w' = (Raise missing, w'))
    /\ _post float_str self path payload verify env w
       = (Raise missing, after_tick w)
    /\ sent (after_tick w) = sent w.
Proof.
  intros b k m path payload verify env w self missing.
  split; [|split].
  - intros. now apply headers_raise.
  - now apply post_unsigned.
  - reflexivity.
Qed.

(** C10: construction succeeds exactly when [nonce_multiplier] is a
    float; any other value (the integer 2 for one) fails the assertion;
    no sign check is made, so zero and negative floats are stored as
    given and [_nonce] multiplies the clock reading by them. *)
Theorem init_accepts_exactly_floats :
  forall key secret multiplier,
    ((exists c, __init__ key secret multiplier = Return c)
     <-> isinstance_float multiplier = true)
    /\ (isinstance_float multiplier = false ->
        __init__ key secret multiplier
        = Raise (AssertionError "nonce_multiplier must be decimal"))
    /\ __init__ key secret (VInt 2)
       = Raise (AssertionError "nonce_multiplier must be decimal")
    /\ (forall m : spec_float,
          exists c,
            __init__ key secret (VFloat m) = Return c
            /\ nonce_multiplier c = m
            /\ forall env w,
                 fst (_nonce float_str c env w)
                 = Return (float_str (Float.mul (clock env (ticks w)) m)))
    /\ (exists c, __init__ key secret (VFloat (S754_zero false)) = Return c)
    /\ (exists c, __init__ key secret (VFloat (SFopp Float.one)) = Return c).
Proof.
  intros key secret nm. split; [|split; [|split; [|split; [|split]]]].
  - split.
    + intros [c Hc]. destruct nm; try discriminate Hc. reflexivity.
    + intros Hf. destruct nm; try discriminate Hf. eexists. reflexivity.
  - intros Hf. destruct nm; try discriminate Hf; reflexivity.
  - reflexivity.
  - intros m. eexists. split; [reflexivity|]. split; reflexivity.
  - eexists. reflexivity.
  - eexists. reflexivity.
Qed.

(** A status other than 200 with a body that does not decode: the
    handler evaluates [response.text()], a call of a [str], and that
    [TypeError] is what comes out of [_get] and [_post]. *)
Lemma error_status_without_json_raises_type_error
      (self : Client) (s path payload : string) params verify env w r :
  status_code r <> 200 ->
  json r = None ->
  (server env (get_call (String.append (base_url self) path) TIMEOUT params)
     = Return r ->
   fst (_get self path params env w)
     = Raise (TypeError "'str' object is not callable"))
  /\ (secret self = VStr s ->
      (forall h, server env (post_call (String.append (base_url self) path)
                               h payload verify) = Return r) ->
      fst (_post float_str self path payload verify env w)
        = Raise (TypeError "'str' object is not callable")).
Proof.
  intros Hst Hj. split.
  - intros Hsrv. rewrite get_run. cbn [fst]. rewrite Hsrv. cbn [reply].
    now apply reply_error_text.
  - intros Hs Hsrv.
    destruct (post_run self path payload s verify env w Hs) as (h & _ & Hrun).
    rewrite Hrun. cbn [fst]. rewrite Hsrv. cbn [reply].
    now apply reply_error_text.
Qed.

Lemma successive_run (self : Client) env w :
  successive_nonces float_str self env w
  = (Return (float_str (Float.mul (clock env (ticks w)) (nonce_multiplier self)),
             float_str (Float.mul (clock env (S (ticks w)))
                                  (nonce_multiplier self))),
     after_tick (after_tick w)).
Proof. reflexivity. Qed.


End ClientProperties.

(* ===================================================================== *)
(** ** Worked examples *)
(* ===================================================================== *)

Example sha384_abc :
  Hmac.hex (Sha384.digest (encode_utf8 "abc")) =
  "cb00753f45a35e8bb5a03d699ac65007272c32ab0eded1631a8b605a43ff5bed8086072ba1e7cc2358baeca134c825a7".
Proof. vm_compute. reflexivity. Qed.

(** The reference vector for secret abc and the signing string
    /api/v2/auth/r/wallets1000{}. *)
Example hmac_golden :
  Hmac.hexdigest (encode_utf8 "abc") (encode_utf8 "/api/v2/auth/r/wallets1000{}") =
  "852912b8758b1365913a82145023045dd4726a931a42491a67e817811a296a7b0a63e471d5550a5a3c0e65a12477fa53".
Proof. vm_compute. reflexivity. Qed.

Example repr_examples :
  Float.repr TIMEOUT = "5.0"
  /\ Float.repr t_2023 = "1700000000.0"
  /\ Float.repr t_near = "1700000000.0000012"
  /\ Float.repr t_next = "1700000000.0000014"
  /\ Float.repr (Float.mul t_2023 Float.max_float) = "inf".
Proof. vm_compute. repeat split. Qed.

Example bodies_decode :
  Json.loads status_body = Json.Decoded (VList [VStr "1"]) []
  /\ Json.loads error_body = Json.Decoded (VDict [("error", VStr "nope")]) []
  /\ Json.loads plain_body = Json.Malformed.
Proof. vm_compute. repeat split. Qed.

Example decoder_declines_fractions : Json.loads "[1.5]" = Json.Unsupported.
Proof. reflexivity. Qed.

(** A signed call end to end: the one request that [_post] issues. *)
Example signed_post_request :
  sent (snd (_post Float.repr signed_client "v2/auth/r/wallets" "{}" true
               (scripted [t_2023] (received 200 "OK" status_body)) fresh))
  = [ post_call "https://api.bitfinex.com/v2/auth/r/wallets"
        {[ "bfx-nonce" := VStr "1700000000.0";
           "bfx-apikey" := VStr "k";
           "bfx-signature" := VStr
             "1190863f6c871ccc74daa13b506a242240eb4fea645f2dfca3b4d0cd786d3ec4dd27a7d4ee2f48a992353465d3f636d4";
           "content-type" := VStr "application/json" ]}
        "{}" true ].
Proof. vm_compute. reflexivity. Qed.

(** With multiplier 3.0 two neighbouring clock readings give one and
    the same nonce: both products round to the same float. *)
Example multiplier_three_repeats_nonce :
  Float.ltb t_near t_next = true
  /\ fst (successive_nonces Float.repr
            {| base_url := "https://api.bitfinex.com/"; key := VStr "k";
               secret := VStr "abc"; nonce_multiplier := three |}
            (scripted [t_near; t_next] (received 200 "OK" status_body)) fresh)
     = Return ("5100000000.000004", "5100000000.000004").
Proof. vm_compute. split; reflexivity. Qed.

(** C3, at status 500 with body {"error":"nope"}. *)
Lemma error_status_example :
  let env := scripted [t_2023] (received 500 "Internal Server Error" error_body) in
  let raised := Raise (BitfinexException
                  [VInt 500; VStr "Internal Server Error";
                   VDict [("error", VStr "nope")]]) in
  fst (_get anonymous_client "v2/platform/status" [] env fresh) = raised
  /\ fst (_post Float.repr signed_client "v2/auth/r/wallets" "{}" true env fresh)
     = raised.
Proof.
  intros env raised. split.
  - refine (proj1 (error_status_raises_with_json_content Float.repr
              anonymous_client "" "v2/platform/status" "" [] true env fresh
              (received 500 "Internal Server Error" error_body)
              (VDict [("error", VStr "nope")]) _ _) _);
      [vm_compute; discriminate | reflexivity | reflexivity].
  - refine (proj2 (error_status_raises_with_json_content Float.repr
              signed_client "abc" "v2/auth/r/wallets" "{}" [] true env fresh
              (received 500 "Internal Server Error" error_body)
              (VDict [("error", VStr "nope")]) _ _) _ _);
      [vm_compute; discriminate | reflexivity | reflexivity
      | intros h; reflexivity].
Defined.

(** C6, at status 200 with body ["1"]. *)
Lemma ok_status_example :
  let env := scripted [t_2023] (received 200 "OK" status_body) in
  fst (_get anonymous_client "v2/platform/status" [] env fresh)
    = Return (VList [VStr "1"])
  /\ fst (_post Float.repr signed_client "v2/auth/r/wallets" "{}" true env fresh)
     = Return (VList [VStr "1"]).
Proof.
  intros env. split.
  - refine (proj1 (ok_status_returns_decoded_json Float.repr
              anonymous_client "" "v2/platform/status" "" [] true env fresh
              (received 200 "OK" status_body) (VList [VStr "1"]) _ _) _);
      reflexivity.
  - refine (proj2 (ok_status_returns_decoded_json Float.repr
              signed_client "abc" "v2/auth/r/wallets" "{}" [] true env fresh
              (received 200 "OK" status_body) (VList [VStr "1"]) _ _) _ _);
      [reflexivity | reflexivity | reflexivity | intros h; reflexivity].
Defined.


(** C4: at status 500 with the body oops, which is not JSON, the client
    does not raise [BitfinexException] with content oops: [_get] and
    [_post] raise the [TypeError] of calling the string [response.text]. *)
Theorem text_fallback_raises_type_error :
  let r := received 500 "Internal Server Error" plain_body in
  let env := scripted [t_2023] r in
  json r = None
  /\ fst (_get anonymous_client "v2/platform/status" [] env fresh)
     = Raise (TypeError "'str' object is not callable")
  /\ fst (_post Float.repr signed_client "v2/auth/r/wallets" "{}" true env fresh)
     = Raise (TypeError "'str' object is not callable")
  /\ fst (_get anonymous_client "v2/platform/status" [] env fresh)
     <> Raise (BitfinexException
                 [VInt 500; VStr "Internal Server Error"; VStr "oops"]).
Proof.
  intros r env. split; [reflexivity|]. split; [|split].
  - refine (proj1 (error_status_without_json_raises_type_error Float.repr
              anonymous_client "" "v2/platform/status" "" [] true env fresh r
              _ _) _); [vm_compute; discriminate | reflexivity | reflexivity].
  - refine (proj2 (error_status_without_json_raises_type_error Float.repr
              signed_client "abc" "v2/auth/r/wallets" "{}" [] true env fresh r
              _ _) _ _);
      [vm_compute; discriminate | reflexivity | reflexivity
      | intros h; reflexivity].
  - vm_compute. discriminate.
Qed.


(* ===================================================================== *)
(** ** More about [_get], [_post] and [_headers] *)
(* ===================================================================== *)

Lemma bind_ret {A} (c : M A) env w : (x <- c ;; ret x) env w = c env w.
Proof. unfold bind, ret. destruct (c env w) as [[a|e] w']; reflexivity. Qed.

Lemma append_assoc (s t u : string) :
  String.append (String.append s t) u = String.append s (String.append t u).
Proof.
  induction s as [|c s IH]; [reflexivity|].
  now rewrite !append_cons, IH.
Qed.

Lemma encode_raises (v : value) :
  (forall s, v <> VStr s) ->
  Py.encode v = Raise (AttributeError
                  (String.append "'" (String.append (type_name v)
                     "' object has no attribute 'encode'"))).
Proof. intros H. destruct v; try reflexivity. now destruct (H s). Qed.

Lemma mul_neg_one (x : spec_float) :
  Float.valid x = true -> Float.mul x (SFopp Float.one) = SFopp x.
Proof.
  destruct x as [s|s| |s m e]; intros Hv; cbn; try now rewrite ?xorb_true_r.
  apply valid_finite_inv in Hv as [Hc He].
  unfold Float.mul, Float.one, SFopp, SFmul.
  rewrite mul_pow2_pos, xorb_true_r.
  replace (e + -52) with (e - 52) by lia.
  rewrite round_shifted by exact Hc.
  now replace (e <=? 971) with true by (symmetry; apply Z.leb_le; lia).
Qed.

Lemma ltb_opp_swap (m1 m2 : positive) (e1 e2 : Z) :
  Float.ltb (S754_finite false m1 e1) (S754_finite false m2 e2) = true ->
  Float.ltb (S754_finite true m2 e2) (S754_finite true m1 e1) = true.
Proof.
  unfold Float.ltb, SFltb, SFcompare.
  rewrite (Z.compare_antisym e1 e2), !Pos.compare_cont_spec.
  rewrite (Pos.compare_antisym m1 m2).
  destruct (e1 ?= e2); cbn; try easy.
  destruct (m1 ?= m2)%positive; cbn; easy.
Qed.

Section CoreProperties.

Variable float_str : spec_float -> string.

(** The request that [_post] issues for a [str] secret. *)
Lemma post_request (self : Client) (s path payload : string) flag env w :
  secret self = VStr s ->
  exists req h,
    _post float_str self path payload flag env w
      = (reply (server env req), after_issue (after_tick w) req)
    /\ method req = POST
    /\ url req = String.append (base_url self) path
    /\ data req = Some payload
    /\ verify req = Some flag
    /\ timeout req = None
    /\ params req = None
    /\ headers req = Some h
    /\ h !! "bfx-nonce" = Some (VStr (nonce_at float_str self env w))
    /\ h !! "bfx-apikey" = Some (key self)
    /\ h !! "bfx-signature"
       = Some (VStr (Hmac.hexdigest (encode_utf8 s)
                 (encode_utf8 (String.append "/api/"
                    (String.append path
                       (String.append (nonce_at float_str self env w)
                                      payload)))))).
Proof.
  intros Hs.
  destruct (post_run float_str self path payload s flag env w Hs)
    as (h & Hh & Hrun).
  rewrite headers_run with (s := s) in Hh by exact Hs.
  injection Hh as <-. rewrite Hrun.
  do 2 eexists. repeat (split; [reflexivity|]). reflexivity.
Qed.

(** X1: what is signed is what is sent.  The one request of [_post]
    goes to the base URL followed by the path, carries the payload as
    data and the verify flag as given, and its signature is the HMAC
    over "/api/", that path, the nonce of its own bfx-nonce header and
    that payload. *)
Theorem post_signs_what_it_sends :
  forall (self : Client) (s path payload : string) flag env w,
    secret self = VStr s ->
    exists req h,
      sent (snd (_post float_str self path payload flag env w))
        = sent w ++ [req]
      /\ method req = POST
      /\ url req = String.append (base_url self) path
      /\ data req = Some payload
      /\ verify req = Some flag
      /\ params req = None
      /\ headers req = Some h
      /\ h !! "bfx-nonce" = Some (VStr (nonce_at float_str self env w))
      /\ h !! "bfx-apikey" = Some (key self)
      /\ h !! "bfx-signature"
         = Some (VStr (Hmac.hexdigest (encode_utf8 s)
                   (encode_utf8 (String.append "/api/"
                      (String.append path
                         (String.append (nonce_at float_str self env w)
                                        payload)))))).
Proof.
  intros self s path payload flag env w Hs.
  destruct (post_request self s path payload flag env w Hs)
    as (req & h & Hrun & Hm & Hu & Hd & Hv & _ & Hp & Hh & Hn & Hk & Hsig).
  exists req, h. rewrite Hrun. cbn [snd after_issue after_tick sent].
  repeat (split; [assumption || reflexivity|]). assumption.
Qed.

(** X2: an exception of the transport leaves [_get] and [_post] as it
    is, after the one request that met it. *)
Theorem transport_errors_pass_through :
  forall (self : Client) (s path payload : string) params flag env w e,
    (forall req, server env req = Raise e) ->
    _get self path params env w
      = (Raise e, after_issue w (get_call (String.append (base_url self) path)
                                          TIMEOUT params))
    /\ (secret self = VStr s ->
        fst (_post float_str self path payload flag env w) = Raise e
        /\ length (sent (snd (_post float_str self path payload flag env w)))
           = S (length (sent w))).
Proof.
  intros self s path payload params flag env w e Hsrv. split.
  - rewrite get_run, Hsrv. reflexivity.
  - intros Hs.
    destruct (post_run float_str self path payload s flag env w Hs)
      as (h & _ & Hrun).
    rewrite Hrun, Hsrv. cbn. rewrite length_app. cbn. split; [reflexivity|lia].
Qed.

(** X3: status 200 with a body that does not decode: the
    [JSONDecodeError] of [response.json()] leaves [_get] and [_post]
    uncaught. *)
Theorem ok_status_with_bad_body_raises_decode_error :
  forall (self : Client) (s path payload : string) params flag env w r,
    status_code r = 200 ->
    json r = None ->
    (forall req, server env req = Return r) ->
    fst (_get self path params env w) = Raise JSONDecodeError
    /\ (secret self = VStr s ->
        fst (_post float_str self path payload flag env w) = Raise JSONDecodeError).
Proof.
  intros self s path payload params flag env w r Hst Hj Hsrv.
  assert (Hd : decoded r = Raise JSONDecodeError).
  { rewrite reply_ok by exact Hst. unfold Response_json. now rewrite Hj. }
  split.
  - rewrite get_run, Hsrv. exact Hd.
  - intros Hs.
    destruct (post_run float_str self path payload s flag env w Hs)
      as (h & _ & Hrun).
    rewrite Hrun, Hsrv. exact Hd.
Qed.

(** X4: a secret of any type other than [str] stops [_post] in header
    construction with an [AttributeError] that names the type; the
    clock has been read and nothing has been sent. *)
Theorem post_with_non_str_secret_raises :
  forall (self : Client) (path payload : string) flag env w,
    (forall s, secret self <> VStr s) ->
    _post float_str self path payload flag env w
    = (Raise (AttributeError
                (String.append "'" (String.append (type_name (secret self))
                   "' object has no attribute 'encode'"))),
       after_tick w)
    /\ sent (after_tick w) = sent w.
Proof.
  intros self path payload flag env w Hns. split; [|reflexivity].
  apply post_unsigned. now apply encode_raises.
Qed.

(** X5: the key is not part of what is signed and is never inspected.
    Two clients that differ in the key only issue requests that differ
    in the bfx-apikey header only. *)
Theorem key_is_sent_but_not_signed :
  forall b k1 k2 (s path payload : string) m flag env w,
    exists h1 h2 : gmap string value,
      sent (snd (_post float_str
                   {| base_url := b; key := k1; secret := VStr s;
                      nonce_multiplier := m |} path payload flag env w))
        = sent w ++ [post_call (String.append b path) h1 payload flag]
      /\ sent (snd (_post float_str
                      {| base_url := b; key := k2; secret := VStr s;
                         nonce_multiplier := m |} path payload flag env w))
         = sent w ++ [post_call (String.append b path) h2 payload flag]
      /\ h1 = <[ "bfx-apikey" := k1 ]> h2
      /\ h1 !! "bfx-signature" = h2 !! "bfx-signature".
Proof.
  intros b k1 k2 s path payload m flag env w.
  set (c1 := {| base_url := b; key := k1; secret := VStr s;
                nonce_multiplier := m |}).
  set (c2 := {| base_url := b; key := k2; secret := VStr s;
                nonce_multiplier := m |}).
  destruct (post_run float_str c1 path payload s flag env w eq_refl)
    as (h1 & Hh1 & Hrun1).
  destruct (post_run float_str c2 path payload s flag env w eq_refl)
    as (h2 & Hh2 & Hrun2).
  rewrite headers_run with (s := s) in Hh1, Hh2 by reflexivity.
  injection Hh1 as <-. injection Hh2 as <-.
  rewrite Hrun1, Hrun2. do 2 eexists.
  split; [reflexivity|]. split; [reflexivity|]. split; [|reflexivity].
  apply map_eq. intros i. cbn [key secret].
  destruct (decide (i = "bfx-apikey")) as [->|Hne]; [reflexivity|].
  rewrite (lookup_insert_ne _ "bfx-apikey" i) by congruence.
  destruct (decide (i = "bfx-nonce")) as [->|Hn]; [reflexivity|].
  rewrite !(lookup_insert_ne _ "bfx-nonce" i) by congruence.
  rewrite !(lookup_insert_ne _ "bfx-apikey" i) by congruence.
  reflexivity.
Qed.

(** X6: the signing string has no separators, so the signature does
    not fix where the path ends and the nonce begins, nor where the
    nonce ends and the body begins: moving characters across either
    boundary leaves the signature as it is. *)
Theorem signature_ignores_field_boundaries :
  forall b k (s p d n body : string) m env w,
    let self := {| base_url := b; key := k; secret := VStr s;
                   nonce_multiplier := m |} in
    exists h1 h2 h3 : gmap string value,
      _headers self (String.append p d) n body env w = (Return h1, w)
      /\ _headers self p (String.append d n) body env w = (Return h2, w)
      /\ _headers self p d (String.append n body) env w = (Return h3, w)
      /\ h1 !! "bfx-signature" = h2 !! "bfx-signature"
      /\ h2 !! "bfx-signature" = h3 !! "bfx-signature".
Proof.
  intros b k s p d n body m env w self.
  do 3 eexists.
  split; [apply headers_run with (s := s); reflexivity|].
  split; [apply headers_run with (s := s); reflexivity|].
  split; [apply headers_run with (s := s); reflexivity|].
  split.
  - change (Some (VStr (Hmac.hexdigest (encode_utf8 s)
              (encode_utf8 (String.append "/api/"
                 (String.append (String.append p d) (String.append n body))))))
            = Some (VStr (Hmac.hexdigest (encode_utf8 s)
              (encode_utf8 (String.append "/api/"
                 (String.append p (String.append (String.append d n) body))))))).
    now rewrite !append_assoc.
  - change (Some (VStr (Hmac.hexdigest (encode_utf8 s)
              (encode_utf8 (String.append "/api/"
                 (String.append p (String.append (String.append d n) body))))))
            = Some (VStr (Hmac.hexdigest (encode_utf8 s)
              (encode_utf8 (String.append "/api/"
                 (String.append p (String.append d (String.append n body)))))))).
    now rewrite !append_assoc.
Qed.

(** X7: there is no counter behind the nonce.  When two successive
    clock readings are equal, two successive calls of [_post] with the
    same arguments issue one and the same request twice, nonce and
    signature included. *)
Theorem equal_clock_readings_repeat_the_request :
  forall (self : Client) (s path payload : string) flag env w,
    secret self = VStr s ->
    clock env (ticks w) = clock env (S (ticks w)) ->
    exists req,
      sent (snd (_post float_str self path payload flag env
                   (snd (_post float_str self path payload flag env w))))
      = sent w ++ [req; req].
Proof.
  intros self s path payload flag env w Hs Hclock.
  destruct (post_run float_str self path payload s flag env w Hs)
    as (h1 & Hh1 & Hrun1).
  rewrite Hrun1. cbn [snd].
  destruct (post_run float_str self path payload s flag env
              (after_issue (after_tick w)
                 (post_call (String.append (base_url self) path) h1 payload flag))
              Hs) as (h2 & Hh2 & Hrun2).
  rewrite Hrun2. cbn [snd].
  rewrite headers_run with (s := s) in Hh1, Hh2 by exact Hs.
  injection Hh1 as <-. injection Hh2 as <-.
  eexists. cbn [after_issue after_tick sent ticks].
  rewrite <- app_assoc. cbn [app]. unfold nonce_at. cbn [ticks after_issue after_tick].
  rewrite <- Hclock. reflexivity.
Qed.

(** X8: the footprint of the two transport methods.  [_get] never
    reads the clock and issues exactly one request; [_post] reads the
    clock exactly once, whatever happens afterwards, and issues at most
    one request; neither removes or reorders what was sent before. *)
Theorem transport_footprint :
  forall (self : Client) (path payload : string) params flag env w,
    ticks (snd (_get self path params env w)) = ticks w
    /\ (exists req, sent (snd (_get self path params env w)) = sent w ++ [req])
    /\ ticks (snd (_post float_str self path payload flag env w)) = S (ticks w)
    /\ (exists reqs,
          sent (snd (_post float_str self path payload flag env w))
            = sent w ++ reqs
          /\ (length reqs <= 1)%nat).
Proof.
  intros self path payload params flag env w.
  rewrite get_run. split; [reflexivity|]. split; [eexists; reflexivity|].
  destruct (secret self) as [| | | |s| |] eqn:Hs;
    try (rewrite post_unsigned with (e := AttributeError
           (String.append "'" (String.append (type_name (secret self))
              "' object has no attribute 'encode'")))
           by (rewrite Hs; reflexivity);
         split; [reflexivity|]; exists []; cbn; rewrite app_nil_r;
         split; [reflexivity|lia]).
  destruct (post_run float_str self path payload s flag env w Hs)
    as (h & _ & Hrun).
  rewrite Hrun. split; [reflexivity|]. eexists. split; [reflexivity|]. cbn. lia.
Qed.

(** X9: what the multipliers 0.0 and -1.0 do to the nonce.  [__init__]
    accepts both.  With 0.0 two successive nonces at positive clock
    readings are one and the same text, the rendering of 0.0.  With -1.0
    the values read from the two nonces are the negated readings, so a
    clock that advances makes the second value strictly smaller than
    the first. *)
Theorem zero_and_negative_multipliers_break_the_order :
  forall (key secret : value) env w,
    let t1 := clock env (ticks w) in
    let t2 := clock env (S (ticks w)) in
    Float.is_normal_pos t1 = true ->
    Float.is_normal_pos t2 = true ->
    Float.ltb t1 t2 = true ->
    PyFloat.of_str (float_str (SFopp t1)) = Some (SFopp t1) ->
    PyFloat.of_str (float_str (SFopp t2)) = Some (SFopp t2) ->
    (exists (self : Client) (n : string),
        __init__ key secret (VFloat (S754_zero false)) = Return self
        /\ fst (successive_nonces float_str self env w) = Return (n, n)
        /\ n = float_str (S754_zero false))
    /\ (exists (self : Client) (n1 n2 : string) (v1 v2 : spec_float),
          __init__ key secret (VFloat (SFopp Float.one)) = Return self
          /\ fst (successive_nonces float_str self env w) = Return (n1, n2)
          /\ PyFloat.of_str n1 = Some v1
          /\ PyFloat.of_str n2 = Some v2
          /\ v1 = SFopp t1
          /\ v2 = SFopp t2
          /\ Float.ltb v2 v1 = true).
Proof.
  intros key secret env w t1 t2 H1 H2 Hlt Hr1 Hr2.
  destruct t1 as [| | |[] m1 e1] eqn:E1; try discriminate H1.
  destruct t2 as [| | |[] m2 e2] eqn:E2; try discriminate H2.
  pose proof H1 as Hv1. pose proof H2 as Hv2.
  apply andb_prop in Hv1 as [Hv1 _]. apply andb_prop in Hv2 as [Hv2 _].
  split.
  - do 2 eexists. split; [reflexivity|].
    rewrite successive_run. cbn [fst nonce_multiplier].
    fold t1 t2. rewrite E1, E2. split; reflexivity.
  - eexists. exists (float_str (SFopp t1)), (float_str (SFopp t2)),
                    (SFopp t1), (SFopp t2).
    split; [reflexivity|].
    rewrite successive_run. cbn [fst nonce_multiplier].
    fold t1 t2. rewrite E1, E2.
    rewrite !mul_neg_one by assumption.
    split; [reflexivity|]. split; [exact Hr1|]. split; [exact Hr2|].
    split; [reflexivity|]. split; [reflexivity|].
    now apply ltb_opp_swap.
Qed.

End CoreProperties.

(* ===================================================================== *)
(** ** The methods that go through [_get] *)
(* ===================================================================== *)

Lemma strs_of_strings (l : list string) (i : nat) :
  PyText.strs_of (map VStr l) i = Return l.
Proof.
  revert i. induction l as [|s l IH]; intros i; [reflexivity|].
  cbn. now rewrite IH.
Qed.

Lemma join_strings (sep : string) (l : list string) :
  PyText.join sep (map VStr l) = Return (PyText.join_strs sep l).
Proof. unfold PyText.join. now rewrite strs_of_strings. Qed.

(** The first item that is not a string decides the error. *)
Lemma strs_of_first_other (pre : list string) (v : value) (post : list value)
      (i : nat) :
  (forall s, v <> VStr s) ->
  PyText.strs_of (map VStr pre ++ v :: post) i
  = Raise (TypeError
      (String.append "sequence item "
        (String.append (Float.dec_string (Z.of_nat (i + length pre)))
          (String.append ": expected str instance, "
            (String.append (type_name v) " found"))))).
Proof.
  intros Hv. revert i. induction pre as [|s pre IH]; intros i.
  - cbn [map app length]. rewrite Nat.add_0_r.
    destruct v as [| | | |s| |]; try reflexivity. now destruct (Hv s).
  - cbn [map app length PyText.strs_of]. rewrite IH.
    now replace (S i + length pre)%nat with (i + S (length pre))%nat by lia.
Qed.

(** Every list of values is a list of strings or has a first item that
    is not one. *)
Lemma strings_or_not (items : list value) :
  (exists l, items = map VStr l)
  \/ (exists pre v post, items = map VStr pre ++ v :: post
                         /\ forall s, v <> VStr s).
Proof.
  induction items as [|v items IH]; [left; now exists []|].
  destruct v as [| | | |s| |];
    try (right; exists []; eexists; exists items;
         split; [reflexivity | intros s0 H0; discriminate H0]).
  destruct IH as [[l ->]|(pre & v & post & -> & Hv)].
  - left. now exists (s :: l).
  - right. exists (s :: pre), v, post. split; [reflexivity|exact Hv].
Qed.

Lemma tickers_path (x : string) :
  Py.format "v2/tickers?symbols={}" [x]
  = Return (String.append "v2/tickers?symbols=" x).
Proof. cbn. now rewrite append_empty_r. Qed.

(** [tickers] on a non-empty list of strings is the GET of the joined
    path. *)
Lemma tickers_run (self : Client) (first : string) (rest : list string) env w :
  tickers self (VList (map VStr (first :: rest))) env w
  = _get self (String.append "v2/tickers?symbols="
                 (PyText.join_strs "," (first :: rest))) [] env w.
Proof.
  unfold tickers. cbn [map].
  change (VStr first :: map VStr rest) with (map VStr (first :: rest)).
  unfold bind at 1, lift at 1. rewrite join_strings.
  unfold bind at 1, lift at 1. rewrite tickers_path.
  apply bind_ret.
Qed.

(** [tickers] on a list with an item that is not a string. *)
Lemma tickers_bad_item (self : Client) (pre : list string) (v : value)
      (post : list value) env w :
  (forall s, v <> VStr s) ->
  tickers self (VList (map VStr pre ++ v :: post)) env w
  = (Raise (TypeError
       (String.append "sequence item "
         (String.append (Float.dec_string (Z.of_nat (length pre)))
           (String.append ": expected str instance, "
             (String.append (type_name v) " found"))))), w).
Proof.
  intros Hv. unfold tickers.
  destruct (map VStr pre ++ v :: post) as [|x items] eqn:E.
  - destruct pre; discriminate E.
  - rewrite <- E. unfold bind at 1, lift at 1, PyText.join.
    now rewrite strs_of_first_other by exact Hv.
Qed.

(** X10: [tickers] sends a request exactly for a non-empty list of
    strings.  For such a list the run is the GET of the comma-joined
    path; for every other argument it raises [AssertionError] or
    [TypeError] and leaves the world as it was. *)
Theorem tickers_sends_only_for_string_lists :
  forall (self : Client) (symbol_list : value) env w,
    (forall first rest,
        symbol_list = VList (map VStr (first :: rest)) ->
        tickers self symbol_list env w
        = _get self (String.append "v2/tickers?symbols="
                       (PyText.join_strs "," (first :: rest))) [] env w)
    /\ ((forall first rest, symbol_list <> VList (map VStr (first :: rest))) ->
        (exists msg,
            tickers self symbol_list env w = (Raise (AssertionError msg), w))
        \/ (exists msg,
              tickers self symbol_list env w = (Raise (TypeError msg), w))).
Proof.
  intros self v env w. split.
  - intros first rest ->. apply tickers_run.
  - intros Hno.
    destruct v as [| | | | |items|];
      try (left; eexists; reflexivity).
    destruct items as [|v items]; [left; eexists; reflexivity|].
    destruct (strings_or_not (v :: items)) as [[l Hl]|(pre & x & post & Hl & Hx)].
    + destruct l as [|first rest]; [discriminate Hl|].
      destruct (Hno first rest). now rewrite Hl.
    + right. eexists. rewrite Hl. now apply tickers_bad_item.
Qed.

(** X11: the [TypeError] of [tickers] names the position and the type
    of the first symbol that is not a string. *)
Theorem tickers_names_the_first_bad_symbol :
  forall (self : Client) (pre : list string) (v : value) (post : list value)
         env w,
    (forall s, v <> VStr s) ->
    tickers self (VList (map VStr pre ++ v :: post)) env w
    = (Raise (TypeError
         (String.append "sequence item "
           (String.append (Float.dec_string (Z.of_nat (length pre)))
             (String.append ": expected str instance, "
               (String.append (type_name v) " found"))))), w).
Proof. intros. now apply tickers_bad_item. Qed.

(** *** The joined path determines the symbols *)

Lemma comma_split (a a' x y : string) :
  comma_free a -> comma_free a' -> tail_like x -> tail_like y ->
  String.append a x = String.append a' y -> a = a' /\ x = y.
Proof.
  unfold comma_free. revert a'.
  induction a as [|c a IH]; intros a' Ha Ha' Hx Hy E.
  - destruct a' as [|c' a'']; [now split|].
    rewrite append_cons in E. cbn in E. cbn in Ha'.
    destruct Hx as [->|[x' ->]]; [discriminate E|].
    injection E as <- _. cbn in Ha'. discriminate Ha'.
  - rewrite append_cons in E. cbn in Ha.
    apply andb_prop in Ha as [Hc Ha].
    destruct a' as [|c' a''].
    + cbn in E. destruct Hy as [->|[y' ->]]; [discriminate E|].
      injection E as -> _. cbn in Hc. discriminate Hc.
    + rewrite append_cons in E. injection E as <- E.
      cbn in Ha'. apply andb_prop in Ha' as [_ Ha'].
      destruct (IH a'' Ha Ha' Hx Hy E) as [-> ->]. now split.
Qed.

Lemma join_tail (l : list string) :
  tail_like (match l with
             | [] => ""
             | _ :: _ => String.append "," (PyText.join_strs "," l)
             end).
Proof. destruct l; [now left|right; eexists; reflexivity]. Qed.

Lemma join_cons (s : string) (l : list string) :
  PyText.join_strs "," (s :: l)
  = String.append s (match l with
                     | [] => ""
                     | _ :: _ => String.append "," (PyText.join_strs "," l)
                     end).
Proof. destruct l; cbn [PyText.join_strs]; [now rewrite append_empty_r|reflexivity]. Qed.

Lemma join_injective (l1 l2 : list string) :
  Forall comma_free l1 -> Forall comma_free l2 ->
  l1 <> [] -> l2 <> [] ->
  PyText.join_strs "," l1 = PyText.join_strs "," l2 -> l1 = l2.
Proof.
  revert l2. induction l1 as [|a l1 IH]; intros l2 H1 H2 N1 N2 E;
    [contradiction|].
  destruct l2 as [|a' l2]; [contradiction|].
  rewrite !join_cons in E.
  apply Forall_cons_iff in H1 as [Ha H1], H2 as [Ha' H2].
  destruct (comma_split _ _ _ _ Ha Ha' (join_tail l1) (join_tail l2) E)
    as [-> Et].
  f_equal. destruct l1 as [|b l1], l2 as [|b' l2]; try discriminate Et;
    [reflexivity|].
  injection Et as Et. apply IH; try assumption; discriminate.
Qed.

Lemma append_inv_head (p s t : string) :
  String.append p s = String.append p t -> s = t.
Proof.
  induction p as [|c p IH]; [easy|].
  rewrite !append_cons. intros E. injection E as E. auto.
Qed.

(** X12: when no symbol contains a comma, the request of [tickers]
    determines the list of symbols: two different non-empty lists lead
    to different requests. *)
Theorem tickers_request_determines_symbols :
  forall (self : Client) (l1 l2 : list string) env w,
    Forall comma_free l1 -> Forall comma_free l2 ->
    l1 <> [] -> l2 <> [] ->
    l1 <> l2 ->
    sent (snd (tickers self (VList (map VStr l1)) env w))
    <> sent (snd (tickers self (VList (map VStr l2)) env w)).
Proof.
  intros self l1 l2 env w H1 H2 N1 N2 Hne E. apply Hne.
  destruct l1 as [|a1 l1]; [contradiction|].
  destruct l2 as [|a2 l2]; [contradiction|].
  rewrite !tickers_run, !get_run in E. cbn [snd after_issue sent] in E.
  apply app_inv_head in E. injection E as E.
  apply append_inv_head in E. apply append_inv_head in E.
  now apply join_injective.
Qed.

(* ===================================================================== *)
(** ** [candles] and [stats] *)
(* ===================================================================== *)

Lemma pop_last {A} (init : list A) (x : A) :
  PyText.pop (init ++ [x]) = Return (x, init).
Proof. unfold PyText.pop. now rewrite rev_unit, rev_involutive. Qed.

Lemma fold_colons (l : list string) (acc tail : string) :
  String.append
    (fold_left (fun path arg => String.append (String.append path ":") arg) l acc)
    tail
  = String.append acc
      (fold_right (fun arg rest => String.append ":" (String.append arg rest))
                  tail l).
Proof.
  revert acc. induction l as [|a l IH]; intros acc; [reflexivity|].
  cbn [fold_left fold_right]. rewrite IH, !append_assoc. reflexivity.
Qed.

Lemma candles_run (self : Client) (init : list string) (section : string)
      kwargs env w :
  existsb (fun kv => String.eqb (fst kv) "path") kwargs = false ->
  candles self (init ++ [section]) kwargs env w
  = _get self
      (String.append "v2/candles/trade"
         (fold_right (fun arg rest => String.append ":" (String.append arg rest))
                     (String.append "/" section) init))
      kwargs env w.
Proof.
  intros Hk. unfold candles.
  unfold bind at 1, lift at 1. rewrite pop_last. cbn [fst snd].
  unfold bind at 1, lift at 1. cbn [Py.format Ascii.eqb Bool.eqb].
  rewrite append_empty_r, bind_ret. unfold get_with_keywords. rewrite Hk.
  now rewrite fold_colons.
Qed.

Lemma candles_refusal (self : Client) (args : list string) kwargs env w :
  args = [] \/ existsb (fun kv => String.eqb (fst kv) "path") kwargs = true ->
  candles self args kwargs env w
  = (Raise match args with
           | [] => IndexError "pop from empty list"
           | _ :: _ =>
               TypeError "Client._get() got multiple values for argument 'path'"
           end, w).
Proof.
  intros H.
  destruct args as [|a args]; [reflexivity|].
  destruct H as [H|H]; [discriminate H|].
  destruct (exists_last (l := a :: args)) as (init & section & ->);
    [discriminate|].
  unfold candles. unfold bind at 1, lift at 1. rewrite pop_last. cbn [fst snd].
  unfold bind at 1, lift at 1. cbn [Py.format Ascii.eqb Bool.eqb].
  rewrite bind_ret. unfold get_with_keywords. rewrite H.
  destruct (init ++ [section]) eqn:E; [now destruct init|reflexivity].
Qed.

(** X13: [candles] puts the positional arguments before the last one
    behind colons, the last one behind a slash, and passes the keyword
    arguments on as query parameters. *)
Theorem candles_builds_the_path :
  forall (self : Client) (init : list string) (section : string) kwargs env w,
    existsb (fun kv => String.eqb (fst kv) "path") kwargs = false ->
    candles self (init ++ [section]) kwargs env w
    = _get self
        (String.append "v2/candles/trade"
           (fold_right (fun arg rest => String.append ":" (String.append arg rest))
                       (String.append "/" section) init))
        kwargs env w.
Proof. intros. now apply candles_run. Qed.

(** X14: [candles] without positional arguments fails on the empty
    [pop], and with a keyword named path the call of [_get] is refused;
    in both cases nothing is sent. *)
Theorem candles_refuses_before_sending :
  forall (self : Client) (args : list string) kwargs env w,
    args = [] \/ existsb (fun kv => String.eqb (fst kv) "path") kwargs = true ->
    candles self args kwargs env w
    = (Raise match args with
             | [] => IndexError "pop from empty list"
             | _ :: _ =>
                 TypeError "Client._get() got multiple values for argument 'path'"
             end, w).
Proof. intros. now apply candles_refusal. Qed.

(** *** [stats] *)

Lemma bindE_pure_done {A B} (a : A) (k : A -> E B) :
  bindE (pure (Done a)) k = k a.
Proof. reflexivity. Qed.

Lemma bindE_done {A B} (a : A) (k : A -> E B) :
  bindE (done a) k = k a.
Proof. reflexivity. Qed.

Lemma bindE_pure_failed {A B} (f : failure) (k : A -> E B) :
  bindE (pure (Failed f)) k = fail f.
Proof. reflexivity. Qed.

Lemma bindE_core_done {A} (c : M A) env w :
  (x <~ core c ;; done x) env w = core c env w.
Proof.
  unfold bindE, core, done. destruct (c env w) as [[a|e] w']; reflexivity.
Qed.

Lemma getitem_failed {A} (d : list (string * A)) (k : string) f :
  getitem d k = Failed f -> f = KeyError k.
Proof.
  induction d as [|[k' v] d IH]; cbn; [congruence|].
  destruct (String.eqb k' k); [discriminate|exact IH].
Qed.

Lemma common_url (k sz sy : string) :
  format_named "v2/stats1/{key}:{size}:{symbol}"
    [("key", k); ("size", sz); ("symbol", sy)]
  = Done (String.append "v2/stats1/"
            (String.append k (String.append ":"
               (String.append sz (String.append ":" sy))))).
Proof. cbn. rewrite append_empty_r. reflexivity. Qed.

Lemma pos_size_url (side section sort : string) :
  format_named ":{side}/{section}?sort={sort}"
    [("side", side); ("section", section); ("sort", sort)]
  = Done (String.append ":"
            (String.append side (String.append "/"
               (String.append section (String.append "?sort=" sort))))).
Proof. cbn. rewrite append_empty_r. reflexivity. Qed.

Lemma section_url (section sort : string) :
  format_named "/{section}?sort={sort}" [("section", section); ("sort", sort)]
  = Done (String.append "/"
            (String.append section (String.append "?sort=" sort))).
Proof. cbn. rewrite append_empty_r. reflexivity. Qed.

Lemma symbol2_url (symbol2 section sort : string) :
  format_named ":{symbol2}/{section}?sort={sort}"
    [("symbol2", symbol2); ("section", section); ("sort", sort)]
  = Done (String.append ":"
            (String.append symbol2 (String.append "/"
               (String.append section (String.append "?sort=" sort))))).
Proof. cbn. rewrite append_empty_r. reflexivity. Qed.

Lemma append_empty_l (s : string) : String.append "" s = s.
Proof. reflexivity. Qed.

Ltac stats_run :=
  repeat first
    [ rewrite bindE_pure_done | rewrite bindE_pure_failed | rewrite bindE_done
    | rewrite common_url | rewrite pos_size_url | rewrite section_url
    | rewrite symbol2_url
    | progress cbv beta
    | progress cbn [existsb String.eqb Ascii.eqb Bool.eqb negb orb andb] ].

Ltac stats_path :=
  rewrite bindE_core_done; cbn [PyText.join_strs];
  rewrite ?append_empty_l, ?append_assoc; reflexivity.

Lemma stats_pos_size (self : Client) kwargs (size symbol side section sort : string)
      env w :
  getitem kwargs "key" = Done "pos.size" ->
  getitem kwargs "size" = Done size ->
  getitem kwargs "symbol" = Done symbol ->
  getitem kwargs "side" = Done side ->
  getitem kwargs "section" = Done section ->
  getitem kwargs "sort" = Done sort ->
  stats self kwargs env w
  = core (_get self
            (String.append "v2/stats1/pos.size:"
               (String.append size (String.append ":"
                  (String.append symbol (String.append ":"
                     (String.append side (String.append "/"
                        (String.append section
                           (String.append "?sort=" sort)))))))))
            []) env w.
Proof.
  intros Hkey Hsize Hsymbol Hside Hsection Hsort.
  unfold stats. rewrite Hkey, Hsize, Hsymbol, Hside, Hsection, Hsort.
  stats_run. stats_path.
Qed.

Lemma stats_sized (self : Client) kwargs (key size symbol section sort : string)
      env w :
  key = "funding.size" \/ key = "credits.size" ->
  getitem kwargs "key" = Done key ->
  getitem kwargs "size" = Done size ->
  getitem kwargs "symbol" = Done symbol ->
  getitem kwargs "section" = Done section ->
  getitem kwargs "sort" = Done sort ->
  stats self kwargs env w
  = core (_get self
            (String.append "v2/stats1/"
               (String.append key (String.append ":"
                  (String.append size (String.append ":"
                     (String.append symbol (String.append "/"
                        (String.append section
                           (String.append "?sort=" sort)))))))))
            []) env w.
Proof.
  intros Hk Hkey Hsize Hsymbol Hsection Hsort.
  unfold stats. rewrite Hkey, Hsize, Hsymbol, Hsection, Hsort.
  destruct Hk as [-> | ->]; stats_run; stats_path.
Qed.

Lemma stats_sym (self : Client) kwargs (size symbol symbol2 section sort : string)
      env w :
  getitem kwargs "key" = Done "credits.size.sym" ->
  getitem kwargs "size" = Done size ->
  getitem kwargs "symbol" = Done symbol ->
  getitem kwargs "symbol2" = Done symbol2 ->
  getitem kwargs "section" = Done section ->
  getitem kwargs "sort" = Done sort ->
  stats self kwargs env w
  = core (_get self
            (String.append "v2/stats1/credits.size.sym:"
               (String.append size (String.append ":"
                  (String.append symbol (String.append ":"
                     (String.append symbol2 (String.append "/"
                        (String.append section
                           (String.append "?sort=" sort)))))))))
            []) env w.
Proof.
  intros Hkey Hsize Hsymbol Hsymbol2 Hsection Hsort.
  unfold stats. rewrite Hkey, Hsize, Hsymbol, Hsymbol2, Hsection, Hsort.
  stats_run. stats_path.
Qed.

Ltac use_lookups :=
  repeat match goal with
         | H : getitem _ _ = _ |- _ => progress rewrite H
         end.

Lemma stats_missing_key (self : Client) kwargs env w :
  getitem kwargs "key" = Failed (KeyError "key") ->
  stats self kwargs env w = (Failed (KeyError "key"), w).
Proof. intros H. unfold stats. rewrite H. reflexivity. Qed.

Lemma stats_bad_key (self : Client) kwargs (key : string) env w :
  getitem kwargs "key" = Done key ->
  existsb (String.eqb key)
    ["funding.size"; "credits.size"; "credits.size.sym"; "pos.size"] = false ->
  stats self kwargs env w
  = (Failed (Raised (ValueError
       "Key must have one of the following values : funding.size credits.size credits.size.sym pos.size")),
     w).
Proof.
  intros Hkey Hin. unfold stats. rewrite Hkey, bindE_pure_done. cbv beta.
  rewrite Hin. reflexivity.
Qed.

Ltac missing name :=
  left; exists name;
  match goal with
  | H : getitem _ name = Failed ?f |- _ =>
      pose proof (getitem_failed _ _ _ H) as ->; split; [exact H|]
  end;
  intros self env w; unfold stats; use_lookups; stats_run; reflexivity.

Lemma stats_plan (kwargs : list (string * string)) :
  (exists k, getitem kwargs k = Failed (KeyError k)
             /\ forall self env w,
                  stats self kwargs env w = (Failed (KeyError k), w))
  \/ (exists msg, forall self env w,
        stats self kwargs env w = (Failed (Raised (ValueError msg)), w))
  \/ (exists path, String.prefix "v2/stats1/" path = true
                   /\ forall self env w,
                        stats self kwargs env w
                        = core (_get self path []) env w).
Proof.
  destruct (getitem kwargs "key") as [key|f] eqn:Hkey; [|missing "key"].
  destruct (existsb (String.eqb key)
              ["funding.size"; "credits.size"; "credits.size.sym"; "pos.size"])
    eqn:Hin.
  2: { right. left. eexists. intros self env w.
       now apply stats_bad_key with (key := key). }
  destruct (getitem kwargs "size") as [size|f] eqn:Hsize.
  2: { cbn in Hin.
       destruct (String.eqb_spec key "funding.size") as [->|_]; [missing "size"|].
       destruct (String.eqb_spec key "credits.size") as [->|_]; [missing "size"|].
       destruct (String.eqb_spec key "credits.size.sym") as [->|_]; [missing "size"|].
       destruct (String.eqb_spec key "pos.size") as [->|_]; [missing "size"|].
       discriminate Hin. }
  destruct (getitem kwargs "symbol") as [symbol|f] eqn:Hsymbol.
  2: { cbn in Hin.
       destruct (String.eqb_spec key "funding.size") as [->|_]; [missing "symbol"|].
       destruct (String.eqb_spec key "credits.size") as [->|_]; [missing "symbol"|].
       destruct (String.eqb_spec key "credits.size.sym") as [->|_]; [missing "symbol"|].
       destruct (String.eqb_spec key "pos.size") as [->|_]; [missing "symbol"|].
       discriminate Hin. }
  cbn in Hin.
  destruct (String.eqb_spec key "funding.size") as [->|_].
  { destruct (getitem kwargs "section") as [section|f] eqn:Hsection;
      [|missing "section"].
    destruct (getitem kwargs "sort") as [sort|f] eqn:Hsort; [|missing "sort"].
    right. right. eexists. split; [|intros self env w;
      apply stats_sized with (key := "funding.size"); eauto]. reflexivity. }
  destruct (String.eqb_spec key "credits.size") as [->|_].
  { destruct (getitem kwargs "section") as [section|f] eqn:Hsection;
      [|missing "section"].
    destruct (getitem kwargs "sort") as [sort|f] eqn:Hsort; [|missing "sort"].
    right. right. eexists. split; [|intros self env w;
      apply stats_sized with (key := "credits.size"); eauto]. reflexivity. }
  destruct (String.eqb_spec key "credits.size.sym") as [->|_].
  { destruct (getitem kwargs "symbol2") as [symbol2|f] eqn:Hsymbol2;
      [|missing "symbol2"].
    destruct (getitem kwargs "section") as [section|f] eqn:Hsection;
      [|missing "section"].
    destruct (getitem kwargs "sort") as [sort|f] eqn:Hsort; [|missing "sort"].
    right. right. eexists. split; [|intros self env w;
      apply stats_sym; eauto]. reflexivity. }
  destruct (String.eqb_spec key "pos.size") as [->|_]; [|discriminate Hin].
  destruct (getitem kwargs "side") as [side|f] eqn:Hside; [|missing "side"].
  destruct (getitem kwargs "section") as [section|f] eqn:Hsection;
    [|missing "section"].
  destruct (getitem kwargs "sort") as [sort|f] eqn:Hsort; [|missing "sort"].
  right. right. eexists. split; [|intros self env w;
    apply stats_pos_size; eauto]. reflexivity.
Qed.

(** X15: [stats] with a key outside the four allowed ones raises
    [ValueError] with the list of allowed keys, before any lookup of the
    other arguments and before any request. *)
Theorem stats_rejects_unknown_key :
  forall (self : Client) kwargs (key : string) env w,
    getitem kwargs "key" = Done key ->
    key <> "funding.size" -> key <> "credits.size" ->
    key <> "credits.size.sym" -> key <> "pos.size" ->
    stats self kwargs env w
    = (Failed (Raised (ValueError
         "Key must have one of the following values : funding.size credits.size credits.size.sym pos.size")),
       w).
Proof.
  intros self kwargs key env w Hkey H1 H2 H3 H4.
  apply stats_bad_key with (key := key); [exact Hkey|]. cbn.
  destruct (String.eqb_spec key "funding.size"); [contradiction|].
  destruct (String.eqb_spec key "credits.size"); [contradiction|].
  destruct (String.eqb_spec key "credits.size.sym"); [contradiction|].
  destruct (String.eqb_spec key "pos.size"); [contradiction|reflexivity].
Qed.

(** X16: the path of [stats] for each allowed key, when the arguments
    that key needs are given: side for pos.size, symbol2 for
    credits.size.sym, neither for funding.size and credits.size; further
    keyword arguments are ignored. *)
Theorem stats_builds_the_path :
  forall (self : Client) kwargs (key size symbol section sort : string) env w,
    getitem kwargs "key" = Done key ->
    getitem kwargs "size" = Done size ->
    getitem kwargs "symbol" = Done symbol ->
    getitem kwargs "section" = Done section ->
    getitem kwargs "sort" = Done sort ->
    let common := String.append "v2/stats1/"
                    (String.append key (String.append ":"
                       (String.append size (String.append ":" symbol)))) in
    let tail := String.append "/" (String.append section
                                     (String.append "?sort=" sort)) in
    (key = "funding.size" \/ key = "credits.size" ->
     stats self kwargs env w
     = core (_get self (String.append common tail) []) env w)
    /\ (forall side, key = "pos.size" -> getitem kwargs "side" = Done side ->
        stats self kwargs env w
        = core (_get self (String.append common
                             (String.append ":" (String.append side tail))) [])
               env w)
    /\ (forall symbol2, key = "credits.size.sym" ->
        getitem kwargs "symbol2" = Done symbol2 ->
        stats self kwargs env w
        = core (_get self (String.append common
                             (String.append ":" (String.append symbol2 tail))) [])
               env w).
Proof.
  intros self kwargs key size symbol section sort env w
         Hkey Hsize Hsymbol Hsection Hsort common tail.
  unfold common, tail. split; [|split].
  - intros Hk.
    rewrite stats_sized with (key := key) (size := size) (symbol := symbol)
      (section := section) (sort := sort) by assumption.
    now rewrite !append_assoc.
  - intros side -> Hside.
    rewrite stats_pos_size with (size := size) (symbol := symbol) (side := side)
      (section := section) (sort := sort) by assumption.
    now rewrite !append_assoc.
  - intros symbol2 -> Hsymbol2.
    rewrite stats_sym with (size := size) (symbol := symbol)
      (symbol2 := symbol2) (section := section) (sort := sort) by assumption.
    now rewrite !append_assoc.
Qed.

(** X17: what [stats] never does.  Its local [custom_stats_url] is
    always assigned before it is read, so no [UnboundLocalError] comes
    out; a [KeyError] names an argument that was not given and is raised
    before anything is sent; and the clock is never read. *)
Theorem stats_fails_only_on_missing_arguments :
  forall (self : Client) kwargs env w,
    (forall name,
        fst (stats self kwargs env w) <> Failed (UnboundLocalError name))
    /\ (forall k,
          fst (stats self kwargs env w) = Failed (KeyError k) ->
          getitem kwargs k = Failed (KeyError k)
          /\ snd (stats self kwargs env w) = w)
    /\ ticks (snd (stats self kwargs env w)) = ticks w.
Proof.
  intros self kwargs env w.
  destruct (stats_plan kwargs)
    as [(k & Hk & Hrun)|[(msg & Hrun)|(path & _ & Hrun)]]; rewrite Hrun.
  - split; [discriminate|]. split; [|reflexivity].
    intros k' E. injection E as <-. now split.
  - split; [discriminate|]. split; [discriminate|reflexivity].
  - unfold core. rewrite get_run. cbn [fst snd].
    destruct (reply _) as [a|e]; cbn; (split; [discriminate|]);
      (split; [discriminate|reflexivity]).
Qed.

(* ===================================================================== *)
(** ** All public calls, all private calls *)
(* ===================================================================== *)

Lemma core_ext {A} (c c' : M A) env w :
  c env w = c' env w -> core c env w = core c' env w.
Proof. unfold core. now intros ->. Qed.

Lemma core_raise {A} (c : M A) e env w :
  c env w = (Raise e, w) -> core c env w = (Failed (Raised e), w).
Proof. unfold core. now intros ->. Qed.

Lemma ticker_run (self : Client) (symbol : string) env w :
  ticker self symbol env w
  = _get self (String.append "v2/ticker/" symbol) [] env w.
Proof.
  unfold ticker. unfold bind at 1, lift at 1.
  cbn [Py.format Ascii.eqb Bool.eqb]. rewrite append_empty_r. apply bind_ret.
Qed.

Lemma trades_run (self : Client) (symbol : string) env w :
  trades self symbol env w
  = _get self (String.append "v2/trades/" (String.append symbol "/hist")) []
         env w.
Proof.
  unfold trades. unfold bind at 1, lift at 1.
  cbn [Py.format Ascii.eqb Bool.eqb]. apply bind_ret.
Qed.

Lemma books_run (self : Client) (symbol : string) precision env w :
  books self symbol precision env w
  = _get self (String.append "v2/book/"
                 (String.append symbol
                    (String.append "/" (default "P0" precision)))) [] env w.
Proof. unfold books. apply bind_ret. Qed.

(** Every public call either fails before it sends anything, in a way
    that does not depend on the client, or is one call of [_get] whose
    path and parameters do not depend on the client. *)
Lemma public_plan (c : public_call) :
  (exists f, forall self env w, perform_public self c env w = (Failed f, w))
  \/ (exists path params,
        forall self env w,
          perform_public self c env w = core (_get self path params) env w).
Proof.
  destruct c as [|v|symbol|symbol|symbol precision|kwargs|args kwargs].
  - right. do 2 eexists. intros. apply core_ext, bind_ret.
  - destruct v as [| | | | |items|];
      try (left; eexists; intros; now apply core_raise).
    destruct items as [|v items];
      [left; eexists; intros; now apply core_raise|].
    destruct (strings_or_not (v :: items))
      as [[l Hl]|(pre & x & post & Hl & Hx)]; rewrite Hl.
    + destruct l as [|first rest]; [discriminate Hl|].
      right. do 2 eexists. intros. apply core_ext, tickers_run.
    + left. eexists. intros. apply core_raise. now apply tickers_bad_item.
  - right. do 2 eexists. intros. apply core_ext, ticker_run.
  - right. do 2 eexists. intros. apply core_ext, trades_run.
  - right. do 2 eexists. intros. apply core_ext, books_run.
  - destruct (stats_plan kwargs)
      as [(k & _ & Hrun)|[(msg & Hrun)|(path & _ & Hrun)]].
    + left. eexists. exact Hrun.
    + left. eexists. exact Hrun.
    + right. do 2 eexists. exact Hrun.
  - destruct args as [|a args].
    { left. eexists. intros. apply core_raise.
      apply (candles_refusal self [] kwargs env w). now left. }
    destruct (exists_last (l := a :: args)) as (init & section & Hl);
      [discriminate|].
    destruct (existsb (fun kv => String.eqb (fst kv) "path") kwargs) eqn:Hk.
    + left. eexists. intros. apply core_raise.
      apply (candles_refusal self (a :: args) kwargs env w). now right.
    + right. do 2 eexists. intros. apply core_ext.
      cbn [perform_public]. rewrite Hl. now apply candles_run.
Qed.

(** X18: the public calls do not depend on the credentials.  For every
    modelled method that goes through [_get], the whole run is the same
    whatever key, secret and multiplier the client holds; the clock is
    not read; and at most one request is issued, a GET with the timeout
    5.0 and without headers, data or verify argument. *)
Theorem public_calls_ignore_credentials :
  forall (c : public_call) b k1 s1 m1 k2 s2 m2 env w,
    let run := perform_public {| base_url := b; key := k1; secret := s1;
                                 nonce_multiplier := m1 |} c env w in
    run = perform_public {| base_url := b; key := k2; secret := s2;
                            nonce_multiplier := m2 |} c env w
    /\ ticks (snd run) = ticks w
    /\ (sent (snd run) = sent w
        \/ exists req,
             sent (snd run) = sent w ++ [req]
             /\ method req = GET
             /\ headers req = None
             /\ data req = None
             /\ verify req = None
             /\ timeout req = Some TIMEOUT).
Proof.
  intros c b k1 s1 m1 k2 s2 m2 env w run. unfold run.
  destruct (public_plan c) as [[f Hrun]|(path & params & Hrun)]; rewrite !Hrun.
  - split; [reflexivity|]. split; [reflexivity|]. now left.
  - unfold core. rewrite !get_run. cbn [base_url].
    split; [reflexivity|].
    destruct (reply _) as [a|e]; cbn [snd];
      (split; [reflexivity|]); right; eexists; repeat split.
Qed.

Section PrivateProperties.

Variable float_str : spec_float -> string.

Ltac to_post :=
  repeat (unfold bind at 1, lift at 1;
          cbn [Py.format Ascii.eqb Bool.eqb add_symbol_of negb String.eqb default]);
  rewrite ?append_empty_r; apply bind_ret.

(** Every private call is one call of [_post] with [verify=True], on a
    path under v2/ and a body that do not depend on the client. *)
Lemma private_plan (c : private_call) :
  exists path body,
    (forall self env w,
        perform_private float_str self c env w
        = _post float_str self path body true env w)
    /\ String.prefix "v2/" path = true.
Proof.
  destruct c as [kwargs|kwargs| |trade_pair|trade_pair kwargs|trade_pair kwargs|
                 |symbol|symbol kwargs|symbol|symbol kwargs|symbol|symbol kwargs
                 |symbol kwargs|tradepair|tradepair|period| |alert_type symbol price
                 |symbol direction rate order_type|pkey];
    cbn [perform_private];
    try (do 2 eexists; split;
         [intros self env w;
          unfold market_average_price, foreign_exchange_rate, wallets_balance,
            active_orders, orders_history, trades_history, active_positions,
            funding_offers, funding_loans, funding_credits, margin_info,
            funding_info, performance, alert_list, alert_set,
            calc_available_balance, user_settings_read;
          to_post
         | reflexivity]).
  all: destruct symbol as [[|ch sym]|];
    do 2 eexists; (split;
      [intros self env w;
       unfold funding_offers_history, funding_loans_history,
         funding_credits_history, funding_trades;
       to_post
      | reflexivity]).
Qed.

(** X19: every private call with a [str] secret issues exactly one
    request: a POST with [verify=True] and no timeout, to the base URL
    followed by a path under v2/, whose signature covers that path, the
    nonce of its own header and the body it carries. *)
Theorem private_calls_are_signed_posts :
  forall (c : private_call) (self : Client) (s : string) env w,
    secret self = VStr s ->
    exists path body req h,
      String.prefix "v2/" path = true
      /\ sent (snd (perform_private float_str self c env w)) = sent w ++ [req]
      /\ method req = POST
      /\ url req = String.append (base_url self) path
      /\ data req = Some body
      /\ verify req = Some true
      /\ timeout req = None
      /\ headers req = Some h
      /\ h !! "bfx-nonce" = Some (VStr (nonce_at float_str self env w))
      /\ h !! "bfx-apikey" = Some (key self)
      /\ h !! "bfx-signature"
         = Some (VStr (Hmac.hexdigest (encode_utf8 s)
                   (encode_utf8 (String.append "/api/"
                      (String.append path
                         (String.append (nonce_at float_str self env w)
                                        body)))))).
Proof.
  intros c self s env w Hs.
  destruct (private_plan c) as (path & body & Hrun & Hprefix).
  destruct (post_request float_str self s path body true env w Hs)
    as (req & h & Hpost & Hm & Hu & Hd & Hv & Ht & _ & Hh & Hn & Hk & Hsig).
  exists path, body, req, h. rewrite Hrun, Hpost.
  cbn [snd after_issue after_tick sent].
  repeat (split; [assumption || reflexivity|]). assumption.
Qed.

(** X20: no private call works without a [str] secret, the two
    calculation calls included: each raises the [AttributeError] of
    encoding the secret, after reading the clock and before sending
    anything. *)
Theorem private_calls_need_a_str_secret :
  forall (c : private_call) (self : Client) env w,
    (forall s, secret self <> VStr s) ->
    perform_private float_str self c env w
    = (Raise (AttributeError
                (String.append "'" (String.append (type_name (secret self))
                   "' object has no attribute 'encode'"))),
       after_tick w)
    /\ sent (after_tick w) = sent w.
Proof.
  intros c self env w Hns. split; [|reflexivity].
  destruct (private_plan c) as (path & body & Hrun & _). rewrite Hrun.
  apply post_unsigned. now apply encode_raises.
Qed.

(** X21: the four history calls with an optional symbol.  An omitted
    and an empty symbol give the path that ends in hist right behind the
    collection; any other symbol is put before hist, followed by a
    slash.  The body is the JSON text of the keyword arguments. *)
Theorem history_calls_place_the_symbol :
  forall (self : Client) (symbol : option string) kwargs env w,
    let segment := match symbol with
                   | Some (String c s) => String.append (String c s) "/"
                   | _ => ""
                   end in
    let body := PyText.dumps float_str (VDict kwargs) in
    let post collection :=
      _post float_str self
        (String.append "v2/auth/r/funding/"
           (String.append collection (String.append segment "hist")))
        body true env w in
    funding_offers_history float_str self symbol kwargs env w = post "offers/"
    /\ funding_loans_history float_str self symbol kwargs env w = post "loans/"
    /\ funding_credits_history float_str self symbol kwargs env w = post "credits/"
    /\ funding_trades float_str self symbol kwargs env w = post "trades/".
Proof.
  intros self symbol kwargs env w segment body post. unfold post, body, segment.
  destruct symbol as [[|ch sym]|];
    (split; [|split; [|split]]);
    unfold funding_offers_history, funding_loans_history,
      funding_credits_history, funding_trades;
    to_post.
Qed.

End PrivateProperties.

(* ===================================================================== *)
(** ** Worked examples of the endpoint methods *)
(* ===================================================================== *)

(** X1 at the wallets call of the signed client, clock at 1700000000.0. *)
Lemma post_signs_example :
  exists req h,
    sent (snd (_post Float.repr signed_client "v2/auth/r/wallets" "{}" true
                 (scripted [t_2023] (received 200 "OK" status_body)) fresh))
      = [req]
    /\ url req = "https://api.bitfinex.com/v2/auth/r/wallets"
    /\ data req = Some "{}"
    /\ headers req = Some h
    /\ h !! "bfx-nonce" = Some (VStr "1700000000.0")
    /\ h !! "bfx-signature" = Some (VStr
         "1190863f6c871ccc74daa13b506a242240eb4fea645f2dfca3b4d0cd786d3ec4dd27a7d4ee2f48a992353465d3f636d4").
Proof.
  destruct (post_signs_what_it_sends Float.repr signed_client "abc"
              "v2/auth/r/wallets" "{}" true
              (scripted [t_2023] (received 200 "OK" status_body)) fresh eq_refl)
    as (req & h & Hsent & _ & Hu & Hd & _ & _ & Hh & Hn & _ & Hsig).
  exists req, h.
  split; [exact Hsent|]. split; [exact Hu|]. split; [exact Hd|].
  split; [exact Hh|]. split.
  - rewrite Hn. vm_compute. reflexivity.
  - rewrite Hsig. vm_compute. reflexivity.
Defined.

(** X2 at a transport that raises ConnectionError. *)
Lemma transport_error_example :
  _get anonymous_client "v2/platform/status" []
       (unreachable [t_2023] (RequestException "ConnectionError")) fresh
  = (Raise (RequestException "ConnectionError"),
     {| ticks := 0;
        sent := [get_call "https://api.bitfinex.com/v2/platform/status"
                          TIMEOUT []] |}).
Proof.
  exact (proj1 (transport_errors_pass_through Float.repr anonymous_client ""
                  "v2/platform/status" "" [] true
                  (unreachable [t_2023] (RequestException "ConnectionError"))
                  fresh (RequestException "ConnectionError")
                  (fun _ => eq_refl))).
Defined.

(** X3 at status 200 with the body oops. *)
Lemma bad_body_example :
  fst (_get anonymous_client "v2/platform/status" []
         (scripted [t_2023] (received 200 "OK" plain_body)) fresh)
  = Raise JSONDecodeError.
Proof.
  exact (proj1 (ok_status_with_bad_body_raises_decode_error Float.repr
                  anonymous_client "" "v2/platform/status" "" [] true
                  (scripted [t_2023] (received 200 "OK" plain_body)) fresh
                  (received 200 "OK" plain_body) eq_refl eq_refl
                  (fun _ => eq_refl))).
Defined.

(** X4 at a client whose secret is the integer 5. *)
Lemma non_str_secret_example :
  _post Float.repr miskeyed_client "v2/auth/r/wallets" "{}" true
        (scripted [t_2023] (received 200 "OK" status_body)) fresh
  = (Raise (AttributeError "'int' object has no attribute 'encode'"),
     {| ticks := 1; sent := [] |}).
Proof.
  refine (proj1 (post_with_non_str_secret_raises Float.repr miskeyed_client
                   "v2/auth/r/wallets" "{}" true
                   (scripted [t_2023] (received 200 "OK" status_body)) fresh _)).
  intros s H. discriminate H.
Defined.

(** X7 at a clock that returns 1700000000.0 twice. *)
Lemma repeated_request_example :
  exists req,
    sent (snd (_post Float.repr signed_client "v2/auth/r/wallets" "{}" true
                 (scripted [t_2023; t_2023] (received 200 "OK" status_body))
                 (snd (_post Float.repr signed_client "v2/auth/r/wallets" "{}"
                         true
                         (scripted [t_2023; t_2023]
                                   (received 200 "OK" status_body)) fresh))))
    = [req; req].
Proof.
  exact (equal_clock_readings_repeat_the_request Float.repr signed_client "abc"
           "v2/auth/r/wallets" "{}" true
           (scripted [t_2023; t_2023] (received 200 "OK" status_body)) fresh
           eq_refl eq_refl).
Defined.

(** X9 at two neighbouring clock readings, for a client built by
    [Client("k", "abc", 0.0)] and one built by [Client("k", "abc", -1.0)]. *)
Lemma negative_multiplier_example :
  (exists self,
      __init__ (VStr "k") (VStr "abc") (VFloat (S754_zero false)) = Return self
      /\ fst (successive_nonces Float.repr self
                (scripted [t_near; t_next] (received 200 "OK" status_body)) fresh)
         = Return ("0.0", "0.0"))
  /\ (exists self,
        __init__ (VStr "k") (VStr "abc") (VFloat (SFopp Float.one)) = Return self
        /\ fst (successive_nonces Float.repr self
                  (scripted [t_near; t_next] (received 200 "OK" status_body))
                  fresh)
           = Return ("-1700000000.0000012", "-1700000000.0000014")
        /\ PyFloat.of_str "-1700000000.0000012" = Some (SFopp t_near)
        /\ PyFloat.of_str "-1700000000.0000014" = Some (SFopp t_next)
        /\ Float.ltb (SFopp t_next) (SFopp t_near) = true).
Proof.
  pose (env := scripted [t_near; t_next] (received 200 "OK" status_body)).
  assert (Hn1 : Float.is_normal_pos (clock env (ticks fresh)) = true)
    by (vm_compute; reflexivity).
  assert (Hn2 : Float.is_normal_pos (clock env (S (ticks fresh))) = true)
    by (vm_compute; reflexivity).
  assert (Hlt0 : Float.ltb (clock env (ticks fresh))
                           (clock env (S (ticks fresh))) = true)
    by (vm_compute; reflexivity).
  assert (Hr1 : PyFloat.of_str (Float.repr (SFopp (clock env (ticks fresh))))
                = Some (SFopp (clock env (ticks fresh))))
    by (vm_compute; reflexivity).
  assert (Hr2 : PyFloat.of_str (Float.repr (SFopp (clock env (S (ticks fresh)))))
                = Some (SFopp (clock env (S (ticks fresh)))))
    by (vm_compute; reflexivity).
  destruct (zero_and_negative_multipliers_break_the_order Float.repr
              (VStr "k") (VStr "abc") env fresh Hn1 Hn2 Hlt0 Hr1 Hr2)
    as [(self0 & n & Hi0 & Hrun0 & Hn)
        (self & n1 & n2 & v1 & v2 & Hi & Hrun & H1 & H2 & E1 & E2 & Hlt)].
  split.
  - exists self0. split; [exact Hi0|].
    refine (eq_trans Hrun0 _). rewrite Hn. vm_compute. reflexivity.
  - exists self. split; [exact Hi|].
    pose proof Hi as Hself. unfold __init__ in Hself. injection Hself as <-.
    pose proof Hrun as Hvalues. vm_compute in Hvalues.
    injection Hvalues as <- <-.
    rewrite E1 in H1, Hlt. rewrite E2 in H2, Hlt.
    split; [exact Hrun|]. split; [exact H1|]. split; [exact H2|exact Hlt].
Defined.

(** X10 at the list ["tBTCUSD", "fUSD"]. *)
Lemma tickers_example :
  tickers anonymous_client (VList [VStr "tBTCUSD"; VStr "fUSD"])
          (scripted [t_2023] (received 200 "OK" status_body)) fresh
  = _get anonymous_client "v2/tickers?symbols=tBTCUSD,fUSD" []
         (scripted [t_2023] (received 200 "OK" status_body)) fresh.
Proof.
  exact (proj1 (tickers_sends_only_for_string_lists anonymous_client
                  (VList [VStr "tBTCUSD"; VStr "fUSD"])
                  (scripted [t_2023] (received 200 "OK" status_body)) fresh)
               "tBTCUSD" ["fUSD"] eq_refl).
Defined.

(** X11 at the list ["tBTCUSD", 7]. *)
Lemma bad_symbol_example :
  tickers anonymous_client (VList [VStr "tBTCUSD"; VInt 7])
          (scripted [t_2023] (received 200 "OK" status_body)) fresh
  = (Raise (TypeError "sequence item 1: expected str instance, int found"),
     fresh).
Proof.
  refine (eq_trans
            (tickers_names_the_first_bad_symbol anonymous_client ["tBTCUSD"]
               (VInt 7) []
               (scripted [t_2023] (received 200 "OK" status_body)) fresh _) _).
  - intros s H. discriminate H.
  - vm_compute. reflexivity.
Defined.

(** X12 at the lists ["tBTCUSD"] and ["tBTCUSD", "fUSD"]. *)
Lemma different_symbols_example :
  sent (snd (tickers anonymous_client (VList [VStr "tBTCUSD"])
               (scripted [t_2023] (received 200 "OK" status_body)) fresh))
  <> sent (snd (tickers anonymous_client (VList [VStr "tBTCUSD"; VStr "fUSD"])
                  (scripted [t_2023] (received 200 "OK" status_body)) fresh)).
Proof.
  refine (tickers_request_determines_symbols anonymous_client
            ["tBTCUSD"] ["tBTCUSD"; "fUSD"]
            (scripted [t_2023] (received 200 "OK" status_body)) fresh
            _ _ _ _ _).
  - repeat constructor.
  - repeat constructor.
  - discriminate.
  - discriminate.
  - discriminate.
Defined.

(** X13 at candles("1m", "tBTCUSD", "hist", limit=2). *)
Lemma candles_example :
  candles anonymous_client ["1m"; "tBTCUSD"; "hist"] [("limit", VInt 2)]
          (scripted [t_2023] (received 200 "OK" status_body)) fresh
  = _get anonymous_client "v2/candles/trade:1m:tBTCUSD/hist" [("limit", VInt 2)]
         (scripted [t_2023] (received 200 "OK" status_body)) fresh.
Proof.
  exact (candles_builds_the_path anonymous_client ["1m"; "tBTCUSD"] "hist"
           [("limit", VInt 2)]
           (scripted [t_2023] (received 200 "OK" status_body)) fresh eq_refl).
Defined.

(** X14 at candles(). *)
Lemma candles_without_arguments_example :
  candles anonymous_client [] []
          (scripted [t_2023] (received 200 "OK" status_body)) fresh
  = (Raise (IndexError "pop from empty list"), fresh).
Proof.
  exact (candles_refuses_before_sending anonymous_client [] []
           (scripted [t_2023] (received 200 "OK" status_body)) fresh
           (or_introl eq_refl)).
Defined.

(** X15 at stats(key="vol"). *)
Lemma unknown_key_example :
  stats anonymous_client [("key", "vol")]
        (scripted [t_2023] (received 200 "OK" status_body)) fresh
  = (Failed (Raised (ValueError
       "Key must have one of the following values : funding.size credits.size credits.size.sym pos.size")),
     fresh).
Proof.
  refine (stats_rejects_unknown_key anonymous_client [("key", "vol")] "vol"
            (scripted [t_2023] (received 200 "OK" status_body)) fresh
            eq_refl _ _ _ _); discriminate.
Defined.

(** X16 at a pos.size call. *)
Lemma position_stats_example :
  stats anonymous_client position_stats
        (scripted [t_2023] (received 200 "OK" status_body)) fresh
  = core (_get anonymous_client
            "v2/stats1/pos.size:1m:tBTCUSD:long/hist?sort=1" [])
         (scripted [t_2023] (received 200 "OK" status_body)) fresh.
Proof.
  exact (proj1 (proj2 (stats_builds_the_path anonymous_client position_stats
                         "pos.size" "1m" "tBTCUSD" "hist" "1"
                         (scripted [t_2023] (received 200 "OK" status_body))
                         fresh eq_refl eq_refl eq_refl eq_refl eq_refl))
               "long" eq_refl eq_refl).
Defined.

(** X19 at the wallets call. *)
Lemma signed_call_example :
  exists req h,
    sent (snd (perform_private Float.repr signed_client WalletsBalance
                 (scripted [t_2023] (received 200 "OK" status_body)) fresh))
      = [req]
    /\ method req = POST
    /\ verify req = Some true
    /\ timeout req = None
    /\ headers req = Some h
    /\ h !! "bfx-apikey" = Some (key signed_client).
Proof.
  destruct (private_calls_are_signed_posts Float.repr WalletsBalance
              signed_client "abc"
              (scripted [t_2023] (received 200 "OK" status_body)) fresh eq_refl)
    as (path & body & req & h & _ & Hsent & Hm & _ & _ & Hv & Ht & Hh & _ & Hk & _).
  exists req, h.
  split; [exact Hsent|]. split; [exact Hm|]. split; [exact Hv|].
  split; [exact Ht|]. split; [exact Hh|exact Hk].
Defined.

(** X20 at the foreign exchange rate call of a client without
    credentials. *)
Lemma calculation_call_example :
  perform_private Float.repr anonymous_client (ForeignExchangeRate fx_arguments)
    (scripted [t_2023] (received 200 "OK" status_body)) fresh
  = (Raise (AttributeError "'NoneType' object has no attribute 'encode'"),
     {| ticks := 1; sent := [] |}).
Proof.
  refine (proj1 (private_calls_need_a_str_secret Float.repr
                   (ForeignExchangeRate fx_arguments) anonymous_client
                   (scripted [t_2023] (received 200 "OK" status_body)) fresh _)).
  intros s H. discriminate H.
Defined.

(** The bodies that some private calls post. *)
Example posted_bodies :
  json_dumps Float.repr (VDict []) = "{}"
  /\ json_dumps Float.repr (VDict fx_arguments)
     = String.append "{" (String.append (quoted "ccy1")
         (String.append ": " (String.append (quoted "BTC")
           (String.append ", " (String.append (quoted "ccy2")
             (String.append ": " (String.append (quoted "USD") "}")))))))
  /\ Json.loads (json_dumps Float.repr (VDict fx_arguments))
     = Json.Decoded (VDict fx_arguments) [].
Proof. vm_compute. repeat split. Qed.
